(** * SeBS: the Minio storage backend and the cloud experiment driver

    A shallow embedding of [sebs/storage/minio.py] and of
    [scripts/cloud_experiments.py].  Python objects become records, the
    dictionary of a cache entry a [gmap], exceptions an inductive type, and
    every method a computation in a state-and-exception monad whose state
    holds the object ([self]) and the outside world (docker daemon, storage
    server, entropy source, event trace). *)

From Stdlib Require Import ZArith QArith_base Ascii String List Lia.
From Stdlib Require Import DecimalString.
From stdpp Require Import gmap strings list.

Set Default Proof Using "Type".

(** ** Python values used by the two files *)

Module Py.

(** [needle in hay] on [str]: substring containment. *)
Fixpoint contains (needle hay : string) : bool :=
  String.prefix needle hay ||
  match hay with
  | EmptyString => false
  | String _ rest => contains needle rest
  end.

(** [str(z)] for an [int]. *)
Definition str_int (z : Z) : string := NilZero.string_of_int (Z.to_int z).

(** [l[i]] on a list: negative indices count from the end, anything out
    of range is an [IndexError] ([None] here). *)
Definition getitem {A : Type} (l : list A) (i : Z) : option A :=
  let n := Z.of_nat (length l) in
  if (0 <=? i)%Z then l !! Z.to_nat i
  else if (- n <=? i)%Z then l !! Z.to_nat (n + i)
  else None.

(** [s[i:j]] for [0 <= i <= j]: the slice is cut at the end of [s]. *)
Definition slice (i j : nat) (s : string) : string :=
  String.substring i (j - i) s.

(** [s[i:]]. *)
Definition slice_from (i : nat) (s : string) : string :=
  String.substring i (String.length s - i) s.

(** [timedelta(seconds=s).seconds] for an integer [s]: the timedelta is
    normalised to days and seconds, [.seconds] is the part below a day. *)
Definition timedelta_seconds (s : Z) : Z := (s mod 86400)%Z.

(** [s.upper()] on ASCII text. *)
Definition upper_char (c : ascii) : ascii :=
  let n := nat_of_ascii c in
  if ((97 <=? n) && (n <=? 122))%nat then ascii_of_nat (n - 32) else c.

Fixpoint upper (s : string) : string :=
  match s with
  | EmptyString => EmptyString
  | String c rest => String (upper_char c) (upper rest)
  end.

End Py.

(** ** Exceptions *)

(** The exception classes that the two files raise, catch or can receive
    from the libraries they call.  Library exceptions carry the library's
    message. *)
Inductive exn : Type :=
| RuntimeError (msg : string)
| KeyError (key : string)
| IndexError
| AttributeError (msg : string)
| NameError (name : string)
| TypeError (msg : string)
| NotImplementedError
| SystemExit (status : Z)
| docker_NotFound (msg : string)
| docker_APIError (msg : string)
| minio_ResponseError (msg : string)
| minio_BucketAlreadyOwnedByYou
| minio_BucketAlreadyExists
| minio_NoSuchBucket
| urllib3_MaxRetryError (msg : string).

(** [isinstance(e, docker.errors.APIError)]: [NotFound] derives from
    [APIError]. *)
Definition is_docker_APIError (e : exn) : bool :=
  match e with
  | docker_NotFound _ | docker_APIError _ => true
  | _ => false
  end.

Definition is_docker_NotFound (e : exn) : bool :=
  match e with
  | docker_NotFound _ => true
  | _ => false
  end.

(** [isinstance(e, Exception)]: everything here but [SystemExit]. *)
Definition is_Exception (e : exn) : bool :=
  match e with
  | SystemExit _ => false
  | _ => true
  end.

Definition is_minio_ResponseError (e : exn) : bool :=
  match e with
  | minio_ResponseError _ => true
  | _ => false
  end.

(** The tuple caught by [_create_bucket]. *)
Definition is_bucket_creation_error (e : exn) : bool :=
  match e with
  | minio_BucketAlreadyOwnedByYou | minio_BucketAlreadyExists
  | minio_ResponseError _ => true
  | _ => false
  end.

(** ** The state-and-exception monad *)

Inductive outcome (A : Type) : Type :=
| Return (a : A)
| Raise (e : exn).
Arguments Return {A} a.
Arguments Raise {A} e.

Definition M (S A : Type) : Type := S -> outcome A * S.

#[global] Instance M_ret (S : Type) : MRet (M S) :=
  fun A a s => (Return a, s).

#[global] Instance M_bind (S : Type) : MBind (M S) :=
  fun A B k m s =>
    match m s with
    | (Return a, s') => k a s'
    | (Raise e, s') => (Raise e, s')
    end.

Definition raise {S A : Type} (e : exn) : M S A := fun s => (Raise e, s).

(** [try: body / except <classes> as e: handler e].  What the body did to
    the state before it raised stays done. *)
Definition try_except {S A : Type} (body : M S A) (catches : exn -> bool)
    (handler : exn -> M S A) : M S A :=
  fun s =>
    match body s with
    | (Return a, s') => (Return a, s')
    | (Raise e, s') => if catches e then handler e s' else (Raise e, s')
    end.

Definition gets {S A : Type} (f : S -> A) : M S A := fun s => (Return (f s), s).
Definition modify {S : Type} (f : S -> S) : M S unit :=
  fun s => (Return tt, f s).

(** A result or an exception that comes from outside. *)
Definition of_outcome {S A : Type} (r : outcome A) : M S A := fun s => (r, s).

(** [x = d[k]] on an optional result: a missing value raises. *)
Definition from_option {S A : Type} (e : exn) (o : option A) : M S A :=
  match o with
  | Some a => mret a
  | None => raise e
  end.

(** ** The standard-library modules [uuid], [secrets] and [base64]

    [Minio] takes its bucket suffixes from [uuid.uuid4()] and its
    credentials from [secrets]; both read [os.urandom].  The functions below
    are the pure parts: what CPython computes from the random bytes. *)

Module UUID.

Definition hex_digit (d : Z) : ascii :=
  match String.get (Z.to_nat d) "0123456789abcdef" with
  | Some c => c
  | None => "0"%char
  end.

(** The [n] low-order hexadecimal digits of [z], most significant
    first. *)
Fixpoint hex_fixed (n : nat) (z : Z) : string :=
  match n with
  | O => EmptyString
  | S n' => String (hex_digit ((z / 16 ^ Z.of_nat n') mod 16)) (hex_fixed n' z)
  end.

(** Number of hexadecimal digits of [z >= 0] ([1] for [0]). *)
Definition hex_width (z : Z) : nat :=
  if (z =? 0)%Z then 1 else S (Z.to_nat (Z.log2 z / 4)).

(** ['%032x' % z] for [z >= 0]: lowercase, zero-padded to 32 digits. *)
Definition format_032x (z : Z) : string :=
  hex_fixed (Nat.max 32 (hex_width z)) z.

(** [int.from_bytes(bs, 'big')]. *)
Definition int_from_bytes (bs : list Z) : Z :=
  fold_left (fun acc b => (acc * 256 + b)%Z) bs 0%Z.

Record t : Type := { int : Z }.

(** [UUID(bytes=bs, version=4)]: the variant and version bits are
    forced. *)
Definition of_bytes_v4 (bs : list Z) : t :=
  let i := int_from_bytes bs in
  let i := Z.land i (Z.lnot (Z.shiftl 0xc000 48)) in
  let i := Z.lor i (Z.shiftl 0x8000 48) in
  let i := Z.land i (Z.lnot (Z.shiftl 0xf000 64)) in
  let i := Z.lor i (Z.shiftl 4 76) in
  {| int := i |}.

(** [str(u)]: the 8-4-4-4-12 text. *)
Definition str (u : t) : string :=
  let hex := format_032x (int u) in
  Py.slice 0 8 hex +:+ "-" +:+ Py.slice 8 12 hex +:+ "-" +:+
  Py.slice 12 16 hex +:+ "-" +:+ Py.slice 16 20 hex +:+ "-" +:+
  Py.slice_from 20 hex.

End UUID.

Module Secrets.

(** [bytes.hex()]: two lowercase digits per byte. *)
Fixpoint hexlify (bs : list Z) : string :=
  match bs with
  | [] => EmptyString
  | b :: rest => UUID.hex_fixed 2 b +:+ hexlify rest
  end.

Definition b64_char (d : Z) : ascii :=
  match String.get (Z.to_nat d)
    "ABCDEFGHIJKLMNOPQRSTUVWXYZabcdefghijklmnopqrstuvwxyz0123456789-_" with
  | Some c => c
  | None => "A"%char
  end.

(** [base64.urlsafe_b64encode(bs).rstrip(b'=')]: the padding characters
    are the only ['='] of the encoding, so they are not produced at
    all. *)
Fixpoint urlsafe_b64_nopad (bs : list Z) : string :=
  match bs with
  | [] => EmptyString
  | [a] =>
      String (b64_char (a / 4)) (String (b64_char (a mod 4 * 16)) EmptyString)
  | [a; b] =>
      String (b64_char (a / 4))
        (String (b64_char (a mod 4 * 16 + b / 16))
           (String (b64_char (b mod 16 * 4)) EmptyString))
  | a :: b :: c :: rest =>
      String (b64_char (a / 4))
        (String (b64_char (a mod 4 * 16 + b / 16))
           (String (b64_char (b mod 16 * 4 + c / 64))
              (String (b64_char (c mod 64)) (urlsafe_b64_nopad rest))))
  end.

End Secrets.

(** ** The outside world *)

(** A docker container handle: its id and the attributes loaded into the
    handle, of which the code reads
    [attrs["NetworkSettings"]["Networks"][<network>]["IPAddress"]]. *)
Record Container : Type := {
  c_id : string;
  c_networks : gmap string string
}.

(** What the methods log: the format string and its arguments. *)
Inductive logarg : Type :=
| AStr (s : string)
| AInt (z : Z)
| AExn (e : exn)
| ADeleteError (object_name : string).

Inductive event : Type :=
| DockerRun (image command network_mode host_port access_key secret_key
    : string)
| DockerGet (id : string)
| DockerReload (id : string)
| DockerStop (id : string)
| MakeBucket (bucket location : string)
| FputObject (bucket object_name file_path : string)
| ListObjects (bucket : string)
| RemoveObject (bucket object_name : string)
| LogInfo (fmt : string) (args : list logarg)
| LogError (fmt : string) (args : list logarg).

Record world : Type := {
  (** containers the docker daemon knows, by id, with their networks *)
  daemon : gmap string (gmap string string);
  (** the daemon's answer to the next [containers.run]: an error, or the id
      it gives the container and the networks it attaches *)
  daemon_run : exn + string * gmap string string;
  (** the storage server: buckets and their object keys *)
  store : gmap string (list string);
  (** transport and server failures of the storage calls *)
  fault_make_bucket : string -> option exn;
  fault_fput_object : string -> string -> string -> option exn;
  fault_remove : string -> string -> bool;
  (** [os.urandom]: the byte stream and how much of it was read *)
  urandom_stream : nat -> Z;
  urandom_pos : nat;
  (** every call made to a collaborator, oldest first *)
  trace : list event
}.

Definition set_daemon (f : gmap string (gmap string string) ->
    gmap string (gmap string string)) (w : world) : world :=
  {| daemon := f (daemon w); daemon_run := daemon_run w; store := store w;
     fault_make_bucket := fault_make_bucket w;
     fault_fput_object := fault_fput_object w;
     fault_remove := fault_remove w;
     urandom_stream := urandom_stream w; urandom_pos := urandom_pos w;
     trace := trace w |}.

Definition set_store
    (f : gmap string (list string) -> gmap string (list string))
    (w : world) : world :=
  {| daemon := daemon w; daemon_run := daemon_run w; store := f (store w);
     fault_make_bucket := fault_make_bucket w;
     fault_fput_object := fault_fput_object w;
     fault_remove := fault_remove w;
     urandom_stream := urandom_stream w; urandom_pos := urandom_pos w;
     trace := trace w |}.

Definition set_urandom_pos (f : nat -> nat) (w : world) : world :=
  {| daemon := daemon w; daemon_run := daemon_run w; store := store w;
     fault_make_bucket := fault_make_bucket w;
     fault_fput_object := fault_fput_object w;
     fault_remove := fault_remove w;
     urandom_stream := urandom_stream w; urandom_pos := f (urandom_pos w);
     trace := trace w |}.

Definition set_trace (f : list event -> list event) (w : world) : world :=
  {| daemon := daemon w; daemon_run := daemon_run w; store := store w;
     fault_make_bucket := fault_make_bucket w;
     fault_fput_object := fault_fput_object w;
     fault_remove := fault_remove w;
     urandom_stream := urandom_stream w; urandom_pos := urandom_pos w;
     trace := f (trace w) |}.

Definition emit (e : event) : M world unit :=
  modify (set_trace (fun t => t ++ [e])).

(** [os.urandom(n)]: the next [n] bytes of the stream. *)
Definition os_urandom (n : nat) : M world (list Z) :=
  pos ← gets urandom_pos;
  stream ← gets urandom_stream;
  modify (set_urandom_pos (fun p => (p + n)%nat));;
  mret (map (fun k => (stream (pos + k)%nat mod 256)%Z) (seq 0 n)).

(** [uuid.uuid4()]. *)
Definition uuid4 : M world UUID.t :=
  bs ← os_urandom 16; mret (UUID.of_bytes_v4 bs).

(** [secrets.token_hex(n)] and [secrets.token_urlsafe(n)]. *)
Definition token_hex (n : nat) : M world string :=
  bs ← os_urandom n; mret (Secrets.hexlify bs).

Definition token_urlsafe (n : nat) : M world string :=
  bs ← os_urandom n; mret (Secrets.urlsafe_b64_nopad bs).

(** *** The docker client *)

Module Docker.

(** [docker_client.containers.run(image, command=.., network_mode=..,
    ports={"9000": port}, environment=.., remove=True, detach=True)]: the
    daemon starts the container or refuses.  The handle that comes back
    has no network attributes loaded yet. *)
Definition run (image command network_mode host_port access_key
    secret_key : string) : M world Container :=
  emit (DockerRun image command network_mode host_port access_key
          secret_key);;
  answer ← gets daemon_run;
  match answer with
  | inl e => raise e
  | inr (id, networks) =>
      modify (set_daemon (insert id networks));;
      mret {| c_id := id; c_networks := ∅ |}
  end.

(** [docker_client.containers.get(id)]: [NotFound] when the daemon has no
    such container. *)
Definition get (id : string) : M world Container :=
  emit (DockerGet id);;
  d ← gets daemon;
  match d !! id with
  | Some networks => mret {| c_id := id; c_networks := networks |}
  | None => raise (docker_NotFound id)
  end.

(** [container.reload()]: fetch the attributes again. *)
Definition reload (c : Container) : M world Container :=
  emit (DockerReload (c_id c));;
  d ← gets daemon;
  match d !! c_id c with
  | Some networks => mret {| c_id := c_id c; c_networks := networks |}
  | None => raise (docker_NotFound (c_id c))
  end.

(** [container.stop()]: the containers of this class are run with
    [remove=True], so a stopped one is gone. *)
Definition stop (c : Container) : M world unit :=
  emit (DockerStop (c_id c));;
  d ← gets daemon;
  match d !! c_id c with
  | Some _ => modify (set_daemon (delete (c_id c)))
  | None => raise (docker_NotFound (c_id c))
  end.

End Docker.

(** *** The storage client: [urllib3] pool and [minio.Minio] *)

Module Urllib3.

Record Timeout : Type := { connect : Z; read : Z }.

Record Retry : Type := {
  total : Z;
  backoff_factor : Q;
  status_forcelist : list Z
}.

Record PoolManager : Type := {
  timeout : Timeout;
  maxsize : Z;
  retries : Retry
}.

(** Whether [status] is one of the codes the policy lists for a forced
    retry. *)
Definition in_status_forcelist (r : Retry) (status : Z) : bool :=
  existsb (Z.eqb status) (status_forcelist r).

(** **** What the library does with these arguments

    The rest of the module follows urllib3 1.26 ([util/retry.py],
    [connectionpool.py]) for a [Retry] and a pool made with the keyword
    arguments above and the library's defaults for the others:
    [allowed_methods=DEFAULT_ALLOWED_METHODS],
    [respect_retry_after_header=True], [raise_on_status=True], the counts
    [connect], [read], [redirect], [status] and [other] unset, and
    [block=False].  Redirections and transport errors are left out: what
    the server sends back is a response. *)

(** What the retry logic reads of a response: its status, and the seconds
    that its [Retry-After] header asks for ([None] without the header). *)
Record Response : Type := { status : Z; retry_after : option Q }.

Definition DEFAULT_ALLOWED_METHODS : list string :=
  ["HEAD"; "GET"; "PUT"; "DELETE"; "OPTIONS"; "TRACE"].

Definition RETRY_AFTER_STATUS_CODES : list Z := [413; 429; 503]%Z.

Definition DEFAULT_BACKOFF_MAX : Q := 120%Q.

(** [Retry._is_method_retryable(method)]. *)
Definition _is_method_retryable (method : string) : bool :=
  existsb (String.eqb (Py.upper method)) DEFAULT_ALLOWED_METHODS.

(** [bool(response.headers.get("Retry-After"))]. *)
Definition has_retry_after (response : Response) : bool :=
  match retry_after response with
  | Some _ => true
  | None => false
  end.

(** [Retry.is_retry(method, status_code, has_retry_after)]; [self.total]
    is read as a truth value in the last clause, so a count of zero makes
    it false. *)
Definition is_retry (r : Retry) (method : string) (response : Response)
    : bool :=
  if negb (_is_method_retryable method) then false
  else if in_status_forcelist r (status response) then true
  else negb (total r =? 0)%Z
       && has_retry_after response
       && existsb (Z.eqb (status response)) RETRY_AFTER_STATUS_CODES.

(** [Retry.is_exhausted()]: of the counts only [total] is set;
    [filter(None, ...)] drops a count of zero with the unset ones. *)
Definition is_exhausted (r : Retry) : bool :=
  match List.filter (fun c => negb (c =? 0)%Z) [total r] with
  | [] => false
  | c :: cs => (fold_right Z.min c cs <? 0)%Z
  end.

(** [Retry.increment(method, url, response=response)]: a copy of the
    policy with one retry less, or [MaxRetryError] when that copy is
    exhausted. *)
Definition increment (r : Retry) (response : Response) : outcome Retry :=
  let new_retry :=
    {| total := total r - 1;
       backoff_factor := backoff_factor r;
       status_forcelist := status_forcelist r |} in
  if is_exhausted new_retry
  then Raise (urllib3_MaxRetryError
                ("too many " +:+ Py.str_int (status response)
                 +:+ " error responses"))
  else Return new_retry.

(** [Retry.get_backoff_time()] for a history of [consecutive_errors_len]
    responses, none of them a redirection. *)
Definition get_backoff_time (r : Retry) (consecutive_errors_len : nat) : Q :=
  if (consecutive_errors_len <=? 1)%nat then 0%Q
  else
    let backoff_value :=
      (backoff_factor r
       * inject_Z (2 ^ Z.of_nat (consecutive_errors_len - 1)))%Q in
    if Qle_bool DEFAULT_BACKOFF_MAX backoff_value
    then DEFAULT_BACKOFF_MAX else backoff_value.

(** [Retry.sleep(response)], as the seconds slept: the seconds of a
    [Retry-After] header when positive, the backoff time otherwise. *)
Definition sleep (r : Retry) (history : nat) (response : Response) : Q :=
  let backoff := get_backoff_time r history in
  let _sleep_backoff := if Qle_bool backoff 0 then 0%Q else backoff in
  match retry_after response with
  | Some seconds =>
      if Qle_bool seconds 0 then _sleep_backoff else seconds
  | None => _sleep_backoff
  end.

(** What one call of [urlopen] came to: the response returned or the error
    raised, the number of requests sent, and the seconds slept before each
    retry. *)
Record Exchange : Type := {
  result : outcome Response;
  requests : nat;
  slept : list Q
}.

(** [HTTPConnectionPool.urlopen(method, url, retries=r)] from the point
    where a response arrives: the response is returned unless [is_retry]
    holds; then the policy is incremented, the pool sleeps and the request
    is sent again.  [server n] is the response to request number [n],
    [history] the number of requests answered so far.  The recursion of
    the source is on the call itself; here it is on [fuel]. *)
Fixpoint urlopen (fuel : nat) (r : Retry) (history : nat) (method : string)
    (server : nat -> Response) : option Exchange :=
  match fuel with
  | O => None
  | S fuel' =>
      let response := server history in
      if is_retry r method response then
        match increment r response with
        | Raise e =>
            Some {| result := Raise e; requests := S history; slept := [] |}
        | Return retries' =>
            match urlopen fuel' retries' (S history) method server with
            | Some x =>
                Some {| result := result x;
                        requests := requests x;
                        slept := sleep retries' (S history) response
                                   :: slept x |}
            | None => None
            end
        end
      else
        Some {| result := Return response;
                requests := S history;
                slept := [] |}
  end.

(** [PoolManager.urlopen(method, url)] without a [retries] argument, as
    [minio.Minio] calls it: the pool's policy is used.  One unit of fuel
    per retry the policy allows, and one for the first request. *)
Definition request (http : PoolManager) (method : string)
    (server : nat -> Response) : option Exchange :=
  urlopen (S (Z.to_nat (total (retries http)))) (retries http) 0
    method server.

(** The pool of one host: a LIFO queue of at most [maxsize] entries, first
    filled with [None]; [num_connections] counts the connections made. *)
Record HTTPConnectionPool : Type := {
  pool_maxsize : Z;
  pool : list (option nat);
  num_connections : nat;
  closed : list nat
}.

(** [HTTPConnectionPool(host, port, maxsize=.., block=False)], as the
    manager makes it from its keyword arguments. *)
Definition connection_from_host (http : PoolManager) : HTTPConnectionPool :=
  {| pool_maxsize := maxsize http;
     pool := repeat None (Z.to_nat (maxsize http));
     num_connections := 0;
     closed := [] |}.

(** [self._new_conn()]: connections are named by their number. *)
Definition _new_conn (p : HTTPConnectionPool) : nat * HTTPConnectionPool :=
  let n := S (num_connections p) in
  (n, {| pool_maxsize := pool_maxsize p; pool := pool p;
         num_connections := n; closed := closed p |}).

(** [self._get_conn()]: the entry on top of the queue; a new connection
    when that entry is [None] or the queue is empty (nothing blocks). *)
Definition _get_conn (p : HTTPConnectionPool) : nat * HTTPConnectionPool :=
  match pool p with
  | [] => _new_conn p
  | conn :: rest =>
      let p' := {| pool_maxsize := pool_maxsize p; pool := rest;
                   num_connections := num_connections p;
                   closed := closed p |} in
      match conn with
      | Some c => (c, p')
      | None => _new_conn p'
      end
  end.

(** [self._put_conn(conn)]: back on the queue, or closed and discarded
    when the queue is full (a queue of size zero or less is never full). *)
Definition _put_conn (conn : nat) (p : HTTPConnectionPool)
    : HTTPConnectionPool :=
  if ((0 <? pool_maxsize p) && (pool_maxsize p <=? Z.of_nat (length (pool p))))%Z
  then {| pool_maxsize := pool_maxsize p; pool := pool p;
          num_connections := num_connections p;
          closed := conn :: closed p |}
  else {| pool_maxsize := pool_maxsize p; pool := Some conn :: pool p;
          num_connections := num_connections p;
          closed := closed p |}.

(** The calls that requests make on a pool, in the order they happen. *)
Inductive pool_call : Type :=
| GetConn
| PutConn (conn : nat).

Definition pool_step (p : HTTPConnectionPool) (c : pool_call)
    : HTTPConnectionPool :=
  match c with
  | GetConn => snd (_get_conn p)
  | PutConn conn => _put_conn conn p
  end.

Definition pool_run (calls : list pool_call) (p : HTTPConnectionPool)
    : HTTPConnectionPool :=
  fold_left pool_step calls p.

End Urllib3.

Module MinioClient.

(** The arguments [minio.Minio(...)] was built with. *)
Record t : Type := {
  endpoint : string;
  access_key : string;
  secret_key : string;
  secure : bool;
  http_client : Urllib3.PoolManager
}.

(** [conn.make_bucket(name, location=..)]. *)
Definition make_bucket (name location : string) : M world unit :=
  emit (MakeBucket name location);;
  fault ← gets fault_make_bucket;
  match fault name with
  | Some e => raise e
  | None =>
      st ← gets store;
      match st !! name with
      | Some _ => raise minio_BucketAlreadyOwnedByYou
      | None => modify (set_store (insert name []))
      end
  end.

(** [conn.fput_object(bucket, object_name, file_path)]. *)
Definition fput_object (bucket object_name file_path : string)
    : M world unit :=
  emit (FputObject bucket object_name file_path);;
  fault ← gets fault_fput_object;
  match fault bucket object_name file_path with
  | Some e => raise e
  | None =>
      st ← gets store;
      match st !! bucket with
      | Some objects =>
          modify (set_store (insert bucket
            (if bool_decide (object_name ∈ objects) then objects
             else objects ++ [object_name])))
      | None => raise minio_NoSuchBucket
      end
  end.

(** [conn.list_objects(bucket)] and [conn.list_objects_v2(bucket)], read
    to the end: the keys of the objects in the bucket. *)
Definition list_objects (bucket : string) : M world (list string) :=
  emit (ListObjects bucket);;
  st ← gets store;
  from_option minio_NoSuchBucket (st !! bucket).

(** One object of a [remove_objects] request: the deletion is sent, and
    either the object goes or an error entry comes back for it. *)
Definition remove_object (bucket object_name : string)
    : M world (list string) :=
  emit (RemoveObject bucket object_name);;
  fault ← gets fault_remove;
  if (fault : string -> string -> bool) bucket object_name
  then mret [object_name]
  else
    modify (set_store (alter (filter (fun o => o ≠ object_name)) bucket));;
    mret [].

(** [conn.remove_objects(bucket, objects)], iterated to the end: the
    error entries, one per object that could not be deleted.  Nothing is
    raised for them. *)
Fixpoint remove_objects (bucket : string) (objects : list string)
    : M world (list string) :=
  match objects with
  | [] => mret []
  | o :: rest =>
      errs ← remove_object bucket o;
      errs' ← remove_objects bucket rest;
      mret (errs ++ errs')
  end.

End MinioClient.

(** ** [sebs.types.Storage] *)

Module StorageTypes.

(** Modelled from the spec: the enumeration [sebs.types.Storage] is not
    among the sources; the cache entry carries "a discriminator tag
    identifying which backend implementation produced it", and [MINIO] is
    the member this file uses. *)
Inductive Storage : Type := MINIO.

End StorageTypes.

(** ** Cache entries *)

(** The values of a cache entry dictionary. *)
Inductive value : Type :=
| VStr (s : string)
| VInt (z : Z)
| VList (l : list string)
| VStorage (t : StorageTypes.Storage).

(** [d[key]]: [KeyError] when the key is missing. *)
Definition getitem_dict {S A : Type} (d : gmap string A) (key : string)
    : M S A :=
  from_option (KeyError key) (d !! key).

(** The entry format fixes the type under each key.  A value of another
    type is refused here with a [TypeError] naming the key (Python would
    carry it along to its first use); no statement below is about such an
    entry. *)
Definition as_str {S : Type} (key : string) (v : value) : M S string :=
  match v return M S string with
  | VStr s => mret s
  | _ => raise (TypeError key)
  end.

Definition as_int {S : Type} (key : string) (v : value) : M S Z :=
  match v return M S Z with
  | VInt z => mret z
  | _ => raise (TypeError key)
  end.

Definition as_list {S : Type} (key : string) (v : value) : M S (list string) :=
  match v return M S (list string) with
  | VList l => mret l
  | _ => raise (TypeError key)
  end.

(** ** [class Minio(PersistentStorage)] *)

Module Minio.

(** The instance attributes.  [input_buckets] and [output_buckets] are
    inherited from [PersistentStorage], which is not among the sources;
    [connection] is unset until [configure_connection] ran.  The four
    connection attributes are assigned by [start] and by [deserialize]
    before anything reads them; the constructor gives them the values
    below only to make the record total. *)
Record t : Type := {
  _storage_container : option Container;
  _url : string;
  _port : Z;
  _access_key : string;
  _secret_key : string;
  input_buckets : list string;
  output_buckets : list string;
  connection : option MinioClient.t
}.

Definition set_storage_container (c : option Container) (o : t) : t :=
  {| _storage_container := c; _url := _url o; _port := _port o;
     _access_key := _access_key o; _secret_key := _secret_key o;
     input_buckets := input_buckets o; output_buckets := output_buckets o;
     connection := connection o |}.

Definition set_url (u : string) (o : t) : t :=
  {| _storage_container := _storage_container o; _url := u; _port := _port o;
     _access_key := _access_key o; _secret_key := _secret_key o;
     input_buckets := input_buckets o; output_buckets := output_buckets o;
     connection := connection o |}.

Definition set_port (p : Z) (o : t) : t :=
  {| _storage_container := _storage_container o; _url := _url o; _port := p;
     _access_key := _access_key o; _secret_key := _secret_key o;
     input_buckets := input_buckets o; output_buckets := output_buckets o;
     connection := connection o |}.

Definition set_access_key (k : string) (o : t) : t :=
  {| _storage_container := _storage_container o; _url := _url o;
     _port := _port o; _access_key := k; _secret_key := _secret_key o;
     input_buckets := input_buckets o; output_buckets := output_buckets o;
     connection := connection o |}.

Definition set_secret_key (k : string) (o : t) : t :=
  {| _storage_container := _storage_container o; _url := _url o;
     _port := _port o; _access_key := _access_key o; _secret_key := k;
     input_buckets := input_buckets o; output_buckets := output_buckets o;
     connection := connection o |}.

Definition set_input_buckets (l : list string) (o : t) : t :=
  {| _storage_container := _storage_container o; _url := _url o;
     _port := _port o; _access_key := _access_key o;
     _secret_key := _secret_key o;
     input_buckets := l; output_buckets := output_buckets o;
     connection := connection o |}.

Definition set_output_buckets (l : list string) (o : t) : t :=
  {| _storage_container := _storage_container o; _url := _url o;
     _port := _port o; _access_key := _access_key o;
     _secret_key := _secret_key o;
     input_buckets := input_buckets o; output_buckets := l;
     connection := connection o |}.

Definition set_connection (c : option MinioClient.t) (o : t) : t :=
  {| _storage_container := _storage_container o; _url := _url o;
     _port := _port o; _access_key := _access_key o;
     _secret_key := _secret_key o;
     input_buckets := input_buckets o; output_buckets := output_buckets o;
     connection := c |}.

(** A method runs on [self] and on the world. *)
Definition Meth (A : Type) : Type := M (t * world) A.

Definition get_self : Meth t := gets fst.

Definition modify_self (f : t -> t) : Meth unit :=
  modify (fun s => (f (fst s), snd s)).

(** A call that only touches the world. *)
Definition lift {A : Type} (m : M world A) : Meth A :=
  fun s =>
    match m (snd s) with
    | (r, w') => (r, (fst s, w'))
    end.

(** [obj.method(...)] from a static context: the method runs on [obj],
    which comes back with what the method did to it. *)
Definition run_on {A : Type} (obj : t) (m : Meth A) : M world (A * t) :=
  fun w =>
    match m (obj, w) with
    | (Return a, (obj', w')) => (Return (a, obj'), w')
    | (Raise e, (_, w')) => (Raise e, w')
    end.

Definition log_info (fmt : string) (args : list logarg) : Meth unit :=
  lift (emit (LogInfo fmt args)).

Definition log_error (fmt : string) (args : list logarg) : Meth unit :=
  lift (emit (LogError fmt args)).

(** [for x in l: body x]. *)
Fixpoint for_ {A : Type} (l : list A) (body : A -> Meth unit) : Meth unit :=
  match l with
  | [] => mret tt
  | x :: rest => body x;; for_ rest body
  end.

(** [self.connection], an [AttributeError] while it is unset. *)
Definition the_connection : Meth MinioClient.t :=
  self ← get_self;
  from_option
    (AttributeError "'Minio' object has no attribute 'connection'")
    (connection self).

Definition deployment_name : string := "minio".

Definition typename : string := deployment_name +:+ ".Minio".

Definition MINIO_REGION : string := "us-east-1".

(** [Minio(docker_client, cache_client, replace_existing)]. *)
Definition __init__ : t :=
  {| _storage_container := None; _url := ""; _port := 0;
     _access_key := ""; _secret_key := "";
     input_buckets := []; output_buckets := [];
     connection := None |}.

Definition _define_http_client : Urllib3.PoolManager :=
  let timeout := Py.timedelta_seconds 1 in
  {| Urllib3.timeout :=
       {| Urllib3.connect := timeout; Urllib3.read := timeout |};
     Urllib3.maxsize := 10;
     Urllib3.retries :=
       {| Urllib3.total := 5;
          Urllib3.backoff_factor := 0.2%Q;
          Urllib3.status_forcelist := [500; 502; 503; 504]%Z |} |}.

Definition get_connection (self : t) : MinioClient.t :=
  {| MinioClient.endpoint := _url self;
     MinioClient.access_key := _access_key self;
     MinioClient.secret_key := _secret_key self;
     MinioClient.secure := false;
     MinioClient.http_client := _define_http_client |}.

(** [try: body / except c1 as e: h1 e / except c2 as e: h2 e]: the first
    clause that matches handles the exception, and what a handler raises
    is not caught by the other clause. *)
Definition try_except2 {A : Type} (body : Meth A)
    (c1 : exn -> bool) (h1 : exn -> Meth A)
    (c2 : exn -> bool) (h2 : exn -> Meth A) : Meth A :=
  try_except body (fun e => c1 e || c2 e)
    (fun e => if c1 e then h1 e else h2 e).

Definition configure_connection : Meth unit :=
  self ← get_self;
  (if String.eqb (_url self) "" then
     c ← from_option
           (AttributeError "'NoneType' object has no attribute 'reload'")
           (_storage_container self);
     c ← lift (Docker.reload c);
     modify_self (set_storage_container (Some c));;
     (* networks = attrs["NetworkSettings"]["Networks"]; networks["bridge"] *)
     ip ← getitem_dict (c_networks c) "bridge";
     modify_self (set_url (ip +:+ ":" +:+ Py.str_int (_port self)));;
     self ← get_self;
     (if String.eqb (_url self) "" then
        (* the message reads self._instance, which is never assigned *)
        raise (AttributeError "'Minio' object has no attribute '_instance'")
      else mret tt);;
     log_info "Starting minio instance at {}" [AStr (_url self)]
   else mret tt);;
  self ← get_self;
  modify_self (set_connection (Some (get_connection self))).

Definition start (port : Z) : Meth unit :=
  modify_self (set_port port);;
  k ← lift (token_urlsafe 32);
  modify_self (set_access_key k);;
  k ← lift (token_hex 32);
  modify_self (set_secret_key k);;
  modify_self (set_url "");;
  self ← get_self;
  log_info "Minio storage ACCESS_KEY={}" [AStr (_access_key self)];;
  log_info "Minio storage SECRET_KEY={}" [AStr (_secret_key self)];;
  try_except2
    (c ← lift (Docker.run "minio/minio:latest" "server /data" "bridge"
                 (Py.str_int (_port self)) (_access_key self)
                 (_secret_key self));
     modify_self (set_storage_container (Some c));;
     configure_connection)
    is_docker_APIError
    (fun e =>
       log_error "Starting Minio storage failed! Reason: {}" [AExn e];;
       raise (RuntimeError "Starting Minio storage unsuccesful"))
    is_Exception
    (fun e =>
       log_error "Starting Minio storage failed! Unknown error: {}" [AExn e];;
       raise (RuntimeError "Starting Minio storage unsuccesful")).

Definition stop : Meth unit :=
  self ← get_self;
  match _storage_container self with
  | Some c =>
      log_info "Stopping minio container at {url}" [AStr (_url self)];;
      lift (Docker.stop c);;
      log_info "Stopped minio container at {url}" [AStr (_url self)]
  | None =>
      log_error
        "Stopping minio was not succesful, storage container not known!" []
  end.

(** The [for] loop of [_create_bucket]: the first bucket whose name
    contains [name] is logged and returned. *)
Fixpoint _create_bucket_scan (name : string) (buckets : list string)
    : Meth (option string) :=
  match buckets with
  | [] => mret None
  | bucket_name :: rest =>
      if Py.contains name bucket_name then
        log_info "Bucket {} for {} already exists, skipping."
          [AStr bucket_name; AStr name];;
        mret (Some bucket_name)
      else _create_bucket_scan name rest
  end.

Definition _create_bucket (name : string) (buckets : list string)
    : Meth string :=
  found ← _create_bucket_scan name buckets;
  match found with
  | Some bucket_name => mret bucket_name
  | None =>
      u ← lift uuid4;
      let bucket_name := name +:+ "-" +:+ Py.slice 0 16 (UUID.str u) in
      try_except
        (_ ← the_connection;
         lift (MinioClient.make_bucket bucket_name MINIO_REGION);;
         log_info "Created bucket {}" [AStr bucket_name];;
         mret bucket_name)
        is_bucket_creation_error
        (fun err => log_error "Bucket creation failed!" [];; raise err)
  end.

Definition uploader_func (bucket_idx : Z) (file filepath : string)
    : Meth unit :=
  try_except
    (_ ← the_connection;
     self ← get_self;
     bucket ← from_option IndexError
                (Py.getitem (input_buckets self) bucket_idx);
     lift (MinioClient.fput_object bucket file filepath))
    is_minio_ResponseError
    (fun err => log_error "Upload failed!" [];; raise err).

Definition clean : Meth unit :=
  self ← get_self;
  for_ (output_buckets self) (fun bucket =>
    _ ← the_connection;
    objects ← lift (MinioClient.list_objects bucket);
    errs ← lift (MinioClient.remove_objects bucket objects);
    for_ errs (fun err =>
      log_error "Deletion Error: {}" [ADeleteError err])).

Definition clean_bucket (bucket : string) : Meth unit :=
  _ ← the_connection;
  delete_object_list ← lift (MinioClient.list_objects bucket);
  errors ← lift (MinioClient.remove_objects bucket delete_object_list);
  for_ errors (fun error =>
    log_error "Error when deleting object from bucket {}: {}!"
      [AStr bucket; ADeleteError error]).

Definition correct_name (name : string) : string := name.

Definition download (bucket_name key filepath : string) : Meth unit :=
  raise NotImplementedError.

Definition upload (bucket_name filepath key : string) : Meth unit :=
  raise NotImplementedError.

Definition list_bucket (bucket_name : string) : Meth (list string) :=
  try_except
    (_ ← the_connection; lift (MinioClient.list_objects bucket_name))
    (fun e => match e with minio_NoSuchBucket => true | _ => false end)
    (fun _ =>
       raise (RuntimeError ("Attempting to access a non-existing bucket "
                            +:+ bucket_name +:+ "!"))).

Definition serialize (self : t) : gmap string value :=
  match _storage_container self with
  | Some c =>
      {[ "instance_id" := VStr (c_id c);
         "address" := VStr (_url self);
         "port" := VInt (_port self);
         "secret_key" := VStr (_secret_key self);
         "access_key" := VStr (_access_key self);
         "input" := VList (input_buckets self);
         "output" := VList (output_buckets self);
         "type" := VStorage StorageTypes.MINIO ]}
  | None => ∅
  end.

(** The body of the [try] of [deserialize], run on the fresh object.
    [docker.from_env()] only builds the client, it does not talk to the
    daemon. *)
Definition deserialize_body (cached_config : gmap string value) : Meth unit :=
  match cached_config !! "instance_id" with
  | Some v =>
      instance_id ← as_str "instance_id" v;
      c ← lift (Docker.get instance_id);
      modify_self (set_storage_container (Some c))
  | None => modify_self (set_storage_container None)
  end;;
  v ← getitem_dict cached_config "address";
  address ← as_str "address" v;
  modify_self (set_url address);;
  v ← getitem_dict cached_config "port";
  port ← as_int "port" v;
  modify_self (set_port port);;
  v ← getitem_dict cached_config "access_key";
  access_key ← as_str "access_key" v;
  modify_self (set_access_key access_key);;
  v ← getitem_dict cached_config "secret_key";
  secret_key ← as_str "secret_key" v;
  modify_self (set_secret_key secret_key);;
  v ← getitem_dict cached_config "input";
  input ← as_list "input" v;
  modify_self (set_input_buckets input);;
  v ← getitem_dict cached_config "output";
  output ← as_list "output" v;
  modify_self (set_output_buckets output);;
  configure_connection.

(** [Minio.deserialize(cached_config, cache_client)].  The handler reads
    the local [instance_id], bound only when the key is in the entry. *)
Definition deserialize (cached_config : gmap string value) : M world t :=
  try_except
    (r ← run_on __init__ (deserialize_body cached_config);
     mret (snd r))
    is_docker_NotFound
    (fun _ =>
       match cached_config !! "instance_id" with
       | Some (VStr instance_id) =>
           raise (RuntimeError ("Cached container " +:+ instance_id +:+
                                " not available anymore!"))
       | _ => raise (NameError "instance_id")
       end).

End Minio.

(** ** [scripts/cloud_experiments.py] *)

Module CloudExperiments.

(** The parsed command line. *)
Record Namespace : Type := {
  cloud : string;
  benchmark : string;
  output_dir : string;
  language : string;
  size : string;
  repetitions : Z;
  verbose : bool
}.

(** The storage object that [client.get_storage] hands out, as far as
    [prepare_input] reads it; its [uploader_func] is only passed on to the
    generator. *)
Record Storage : Type := {
  s_input_buckets : list string;
  s_output_buckets : list string
}.

(** The cloud object built from [cloud_providers]. *)
Record Client : Type := {
  get_storage : string -> Z -> bool -> outcome Storage
}.

(** The benchmark's [input] module. *)
Record InputModule : Type := {
  buckets_count : outcome Z;
  generate_input : string -> list string -> list string ->
                   outcome (gmap string string)
}.

(** The collaborators of the script that are not among the sources:
    [cloud_providers.aws], the functions of [experiments_utils] and the
    benchmark's input generator, each with the result it gives or the
    exception it raises. *)
Record collaborators : Type := {
  aws : outcome Client;
  create_output : string -> bool -> outcome string;
  find_benchmark : string -> outcome string;
  create_code_package : string -> string -> string -> bool ->
                        outcome (string * Z);
  import_input : string -> outcome InputModule
}.

Inductive step : Type :=
| ImportAws
| CreateOutput (dir : string) (verbose : bool)
| FindBenchmark (name : string)
| CreateCodePackage (name path language : string) (verbose : bool)
| ImportInput (path : string)
| BucketsCount
| GetStorage (benchmark : string) (buckets : Z) (exclusive : bool)
| GenerateInput (size : string)
| Info (fmt : string) (args : list logarg).

(** The module globals the claims are about, and what the script did so
    far.  [client] is [None] while the name is unbound. *)
Record script : Type := {
  client : option Client;
  steps : list step
}.

Definition bind_client (c : Client) (s : script) : script :=
  {| client := Some c; steps := steps s |}.

Definition did (e : step) : M script unit :=
  modify (fun s => {| client := client s; steps := steps s ++ [e] |}).

(** A call to a collaborator. *)
Definition call {A : Type} (e : step) (r : outcome A) : M script A :=
  did e;; of_outcome r.

Definition in_choices (v : string) (choices : list string) : bool :=
  existsb (String.eqb v) choices.

(** [parser.parse_args()] on the five positional arguments (the two
    options come parsed): a missing or extra positional, or a value that
    is not among the [choices], makes [argparse] print the usage and leave
    with [SystemExit(2)]. *)
Definition parse_args (argv : list string) (repetitions : Z)
    (verbose : bool) : M script Namespace :=
  match argv with
  | [cloud; benchmark; output_dir; language; size] =>
      if in_choices cloud ["azure"; "aws"]
         && in_choices language ["python"; "nodejs"; "cpp"]
         && in_choices size ["test"; "small"; "large"]
      then mret {| cloud := cloud; benchmark := benchmark;
                   output_dir := output_dir; language := language;
                   size := size; repetitions := repetitions;
                   verbose := verbose |}
      else raise (SystemExit 2)
  | _ => raise (SystemExit 2)
  end.

(** Reading the global name [client]. *)
Definition name_client : M script Client :=
  c ← gets client;
  from_option (NameError "name 'client' is not defined") c.

Definition prepare_input (coll : collaborators) (client : Client)
    (benchmark benchmark_path size : string)
    : M script (gmap string string) :=
  input_mod ← call (ImportInput benchmark_path)
                (import_input coll benchmark_path);
  buckets ← call BucketsCount (buckets_count input_mod);
  storage ← call (GetStorage benchmark buckets false)
              (get_storage client benchmark buckets false);
  call (GenerateInput size)
    (generate_input input_mod size (s_input_buckets storage)
       (s_output_buckets storage)).

(** The module body, top to bottom. *)
Definition main (coll : collaborators) (argv : list string)
    (opt_repetitions : Z) (opt_verbose : bool)
    : M script (gmap string string) :=
  args ← parse_args argv opt_repetitions opt_verbose;
  (* create cloud object *)
  (if String.eqb (cloud args) "aws" then
     c ← call ImportAws (aws coll);
     modify (bind_client c)
   else
     (* TODO: *)
     mret tt);;
  (* 0. Input args *)
  args ← parse_args argv opt_repetitions opt_verbose;
  (* 1. Create output dir *)
  _ ← call (CreateOutput (output_dir args) (verbose args))
                 (create_output coll (output_dir args) (verbose args));
  did (Info "# Created experiment output at {}" [AStr (output_dir args)]);;
  (* 2. Locate benchmark *)
  benchmark_path ← call (FindBenchmark (benchmark args))
                     (find_benchmark coll (benchmark args));
  did (Info "# Located benchmark {} at {}"
         [AStr (benchmark args); AStr benchmark_path]);;
  (* 3. Build code package *)
  pkg ← call (CreateCodePackage (benchmark args) benchmark_path
                (language args) (verbose args))
          (create_code_package coll (benchmark args) benchmark_path
             (language args) (verbose args));
  did (Info "# Created code_package {} of size {}"
         [AStr (fst pkg); AInt (snd pkg)]);;
  (* 5. Prepare benchmark input *)
  c ← name_client;
  prepare_input coll c (benchmark args) benchmark_path (size args).

End CloudExperiments.

(** ** Notions used to state the properties *)

Definition is_lower_hex (c : ascii) : bool :=
  existsb (Ascii.eqb c) (list_ascii_of_string "0123456789abcdef").

Definition all_lower_hex (s : string) : bool :=
  forallb is_lower_hex (list_ascii_of_string s).

(** The pattern [n-[0-9a-f]{8}] of the specification, matched against the
    whole of [s]: [n], a hyphen, and exactly eight lowercase hexadecimal
    characters. *)
Definition name_hex8 (n s : string) : bool :=
  String.prefix (n +:+ "-") s &&
  (let h := Py.slice_from (String.length n + 1) s in
   Nat.eqb (String.length h) 8 && all_lower_hex h).

(** The first sixteen characters of a UUID's text: eight lowercase
    hexadecimal characters, a hyphen, four more, a hyphen, two more. *)
Definition uuid_prefix16 (s : string) : bool :=
  Nat.eqb (String.length s) 16 &&
  all_lower_hex (Py.slice 0 8 s) && String.eqb (Py.slice 8 9 s) "-" &&
  all_lower_hex (Py.slice 9 13 s) && String.eqb (Py.slice 13 14 s) "-" &&
  all_lower_hex (Py.slice 14 16 s).

(** State Ready of the backend: it holds the handle of a container that the
    daemon still knows, and its address is resolved. *)
Definition ready (b : Minio.t) (w : world) : bool :=
  match Minio._storage_container b with
  | Some c =>
      match daemon w !! c_id c with
      | Some _ => negb (String.eqb (Minio._url b) "")
      | None => false
      end
  | None => false
  end.

(** What [uuid.uuid4()] returns next in [w], and the name that
    [_create_bucket] then builds for [name]. *)
Definition next_uuid (w : world) : UUID.t :=
  UUID.of_bytes_v4
    (map (fun k => (urandom_stream w (urandom_pos w + k)%nat mod 256)%Z)
       (seq 0 16)).

Definition fresh_bucket_name (name : string) (w : world) : string :=
  name +:+ "-" +:+ Py.slice 0 16 (UUID.str (next_uuid w)).

(** The events that a computation added to the trace of [w] on its way to
    [w']. *)
Definition new_events (w w' : world) : list event :=
  drop (length (trace w)) (trace w').

(** The deletions among some events: bucket and object key, in the order
    in which they were sent. *)
Definition removals (evs : list event) : list (string * string) :=
  omap (fun e => match e with
                 | RemoveObject b o => Some (b, o)
                 | _ => None
                 end) evs.

(** Between two states of the storage server, only [bucket] changed, and it
    only lost objects. *)
Definition shrinks_in (bucket : string) (st st' : gmap string (list string))
    : Prop :=
  (forall b, b ≠ bucket -> st' !! b = st !! b) /\
  match st !! bucket with
  | Some objects =>
      exists objects', st' !! bucket = Some objects' /\ objects' ⊆ objects
  | None => st' !! bucket = None
  end.

(** A world without faults, and objects in it, for the examples. *)
Definition calm_world (d : gmap string (gmap string string))
    (answer : exn + string * gmap string string)
    (st : gmap string (list string)) : world :=
  {| daemon := d; daemon_run := answer; store := st;
     fault_make_bucket := fun _ => None;
     fault_fput_object := fun _ _ _ => None;
     fault_remove := fun _ _ => false;
     urandom_stream := fun n => Z.of_nat (n * 37 + 11);
     urandom_pos := 0;
     trace := [] |}.

Definition example_container : Container :=
  {| c_id := "4f1c09be77aa"; c_networks := {[ "bridge" := "172.17.0.2" ]} |}.

Definition example_connection : MinioClient.t :=
  {| MinioClient.endpoint := "172.17.0.2:9000";
     MinioClient.access_key := "access";
     MinioClient.secret_key := "secret";
     MinioClient.secure := false;
     MinioClient.http_client := Minio._define_http_client |}.

Definition example_backend : Minio.t :=
  {| Minio._storage_container := Some example_container;
     Minio._url := "172.17.0.2:9000";
     Minio._port := 9000;
     Minio._access_key := "access";
     Minio._secret_key := "secret";
     Minio.input_buckets := ["matmul-0a1b2c3d-4e5f-46"];
     Minio.output_buckets :=
       ["matmul-99887766-5544-43"; "matmul-deadbeef-0000-4f"];
     Minio.connection := Some example_connection |}.

Definition example_world : world :=
  calm_world {[ "4f1c09be77aa" := {[ "bridge" := "172.17.0.2" ]} ]}
    (inl (docker_APIError "port is already allocated"))
    {[ "matmul-0a1b2c3d-4e5f-46" := ["in.bin"];
       "matmul-99887766-5544-43" := ["a"; "b"; "c"];
       "matmul-deadbeef-0000-4f" := [] ]}.

(** The world of the example with a storage server that refuses every
    [make_bucket]. *)
Definition refusing_world : world :=
  {| daemon := daemon example_world; daemon_run := daemon_run example_world;
     store := store example_world;
     fault_make_bucket := fun _ => Some minio_BucketAlreadyExists;
     fault_fput_object := fault_fput_object example_world;
     fault_remove := fault_remove example_world;
     urandom_stream := urandom_stream example_world;
     urandom_pos := urandom_pos example_world;
     trace := trace example_world |}.

(** A backend as [start] has it when it calls [configure_connection]: the
    container handle is there, the address is not resolved yet; and a world
    in which the daemon reports an empty address for the container. *)
Definition unresolved_backend : Minio.t :=
  {| Minio._storage_container :=
       Some {| c_id := "4f1c09be77aa"; c_networks := ∅ |};
     Minio._url := "";
     Minio._port := 9000;
     Minio._access_key := "access";
     Minio._secret_key := "secret";
     Minio.input_buckets := [];
     Minio.output_buckets := [];
     Minio.connection := None |}.

Definition empty_address_world : world :=
  calm_world {[ "4f1c09be77aa" := {[ "bridge" := "" ]} ]}
    (inr ("4f1c09be77aa", {[ "bridge" := "" ]})) ∅.

(** The world of the example with a transport that fails every upload. *)
Definition failing_upload_world : world :=
  {| daemon := daemon example_world; daemon_run := daemon_run example_world;
     store := store example_world;
     fault_make_bucket := fault_make_bucket example_world;
     fault_fput_object := fun _ _ _ =>
       Some (minio_ResponseError "InternalError");
     fault_remove := fault_remove example_world;
     urandom_stream := urandom_stream example_world;
     urandom_pos := urandom_pos example_world;
     trace := trace example_world |}.

(** The world of the example with a storage server that cannot delete the
    objects named ["b"]. *)
Definition stubborn_world : world :=
  {| daemon := daemon example_world; daemon_run := daemon_run example_world;
     store := store example_world;
     fault_make_bucket := fault_make_bucket example_world;
     fault_fput_object := fault_fput_object example_world;
     fault_remove := fun _ o => String.eqb o "b";
     urandom_stream := urandom_stream example_world;
     urandom_pos := urandom_pos example_world;
     trace := trace example_world |}.

(** A server that answers every request with the same status, without a
    [Retry-After] header. *)
Definition always_answers (status : Z) : nat -> Urllib3.Response :=
  fun _ => {| Urllib3.status := status; Urllib3.retry_after := None |}.

(** A server that answers the first [n] requests with [response] and the
    later ones with 200. *)
Definition answers_first (n : nat) (response : Urllib3.Response)
    : nat -> Urllib3.Response :=
  fun k =>
    if (k <? n)%nat then response
    else {| Urllib3.status := 200; Urllib3.retry_after := None |}.

(** A world whose daemon knows no container. *)
Definition deserted_world : world :=
  calm_world ∅
    (inl (docker_APIError "Cannot connect to the Docker daemon")) ∅.

(** An entry of a storage that is not self-hosted: no ["instance_id"]. *)
Definition hosted_entry : gmap string value :=
  {[ "address" := VStr "storage.example.org:9000";
     "port" := VInt 9000;
     "secret_key" := VStr "secret";
     "access_key" := VStr "access";
     "input" := VList ["matmul-0a1b2c3d-4e5f-46"];
     "output" := VList ["matmul-99887766-5544-43"];
     "type" := VStorage StorageTypes.MINIO ]}.

(** Collaborators of the driver that all succeed. *)
Definition example_collaborators : CloudExperiments.collaborators :=
  {| CloudExperiments.aws :=
       Return {| CloudExperiments.get_storage := fun _ _ _ =>
                   Return {| CloudExperiments.s_input_buckets := [];
                             CloudExperiments.s_output_buckets := [] |} |};
     CloudExperiments.create_output := fun dir _ => Return dir;
     CloudExperiments.find_benchmark := fun name =>
       Return ("benchmarks/" +:+ name);
     CloudExperiments.create_code_package := fun name _ _ _ =>
       Return (name +:+ ".zip", 2048%Z);
     CloudExperiments.import_input := fun _ =>
       Return {| CloudExperiments.buckets_count := Return 2%Z;
                 CloudExperiments.generate_input := fun _ _ _ => Return ∅ |} |}.

(** * Properties *)

(** ** Stepping through monadic code *)

Ltac munfold :=
  cbv [mbind M_bind mret M_ret raise gets modify from_option of_outcome
       try_except emit getitem_dict as_str as_int as_list
       Minio.lift Minio.run_on Minio.get_self Minio.modify_self
       Minio.log_info Minio.log_error Minio.the_connection
       Minio.try_except2
       Docker.get Docker.reload Docker.run Docker.stop] in *.

(** ** Python strings *)

Section PyFacts.

Lemma prefix_app (n post : string) : String.prefix n (n +:+ post) = true.
Proof.
  induction n as [|c n IH]; simpl.
  - destruct post; reflexivity.
  - destruct (ascii_dec c c) as [_|Hne]; [exact IH | contradiction].
Qed.

Lemma prefix_inv (n h : string) :
  String.prefix n h = true -> exists post, h = n +:+ post.
Proof.
  revert h. induction n as [|c n IH]; intros h H.
  - exists h. reflexivity.
  - destruct h as [|d h]; simpl in H; [discriminate|].
    destruct (ascii_dec c d) as [->|]; [|discriminate].
    destruct (IH h H) as [post ->]. exists post. reflexivity.
Qed.

(** [Py.contains] is substring containment. *)
Lemma contains_spec (n h : string) :
  Py.contains n h = true <-> exists pre post, h = pre +:+ n +:+ post.
Proof.
  split.
  - induction h as [|c h IH]; cbn [Py.contains]; intros H.
    + rewrite orb_false_r in H. apply prefix_inv in H as [post Hp].
      exists EmptyString, post. exact Hp.
    + apply orb_true_iff in H as [H|H].
      * apply prefix_inv in H as [post Hp].
        exists EmptyString, post. exact Hp.
      * destruct (IH H) as (pre & post & ->).
        exists (String c pre), post. reflexivity.
  - intros (pre & post & ->).
    induction pre as [|c pre IH].
    + change ("" +:+ n +:+ post) with (n +:+ post).
      pose proof (prefix_app n post) as Hp.
      destruct (n +:+ post); cbn [Py.contains]; rewrite Hp; reflexivity.
    + change (String c pre +:+ n +:+ post)
        with (String c (pre +:+ n +:+ post)).
      cbn [Py.contains]. rewrite IH. apply orb_true_r.
Qed.

(** The text ["{IPAddress}:{Port}"] is never empty. *)
Lemma address_text_nonempty (ip port_text : string) :
  String.eqb (ip +:+ ":" +:+ port_text) "" = false.
Proof. destruct ip; reflexivity. Qed.

End PyFacts.

(** ** Starting a backend *)

Section Start.

Lemma os_urandom_run (n : nat) (w : world) :
  exists bs,
    os_urandom n w = (Return bs, set_urandom_pos (fun p => (p + n)%nat) w).
Proof. eexists. reflexivity. Qed.

(** A successful [start] leaves the backend in state Ready, with the bucket
    lists it had. *)
Lemma start_ready (port : Z) (o b : Minio.t) (w w' : world) :
  Minio.start port (o, w) = (Return tt, (b, w')) ->
  ready b w' = true /\
  Minio.input_buckets b = Minio.input_buckets o /\
  Minio.output_buckets b = Minio.output_buckets o.
Proof.
  unfold Minio.start, Minio.configure_connection, token_urlsafe, token_hex.
  munfold. cbn [fst snd].
  destruct (os_urandom_run 32 w) as [bs1 ->]. cbn [fst snd].
  destruct (os_urandom_run 32 (set_urandom_pos (fun p => (p + 32)%nat) w))
    as [bs2 ->].
  cbn -[Secrets.hexlify Secrets.urlsafe_b64_nopad Py.str_int].
  destruct (daemon_run w) as [e|[id nets]];
    cbn -[Secrets.hexlify Secrets.urlsafe_b64_nopad Py.str_int].
  - destruct (is_docker_APIError e || is_Exception e);
      [destruct (is_docker_APIError e)|]; discriminate.
  - rewrite lookup_insert_eq.
    cbn -[Secrets.hexlify Secrets.urlsafe_b64_nopad Py.str_int].
    destruct (nets !! "bridge") as [ip|];
      cbn -[Secrets.hexlify Secrets.urlsafe_b64_nopad Py.str_int];
      [|discriminate].
    rewrite address_text_nonempty.
    cbn -[Secrets.hexlify Secrets.urlsafe_b64_nopad Py.str_int].
    intros [= <- <-]. unfold ready.
    cbn -[Secrets.hexlify Secrets.urlsafe_b64_nopad Py.str_int].
    rewrite lookup_insert_eq, address_text_nonempty. auto.
Qed.

(** Once the container is stopped, the entry of the backend cannot be
    restored: state Ready is what the round trip needs. *)
Lemma stopped_backend_not_restored :
  fst (Minio.deserialize (Minio.serialize example_backend)
         (snd (snd (Minio.stop (example_backend, example_world))))) =
    Raise (RuntimeError "Cached container 4f1c09be77aa not available anymore!").
Proof. vm_compute. reflexivity. Qed.

End Start.

(** ** Cache entries: [serialize] and [deserialize] *)

Section Deserialize.

Lemma serialize_Some (b : Minio.t) (c : Container) :
  Minio._storage_container b = Some c ->
  Minio.serialize b !! "instance_id" = Some (VStr (c_id c)) /\
  Minio.serialize b !! "address" = Some (VStr (Minio._url b)) /\
  Minio.serialize b !! "port" = Some (VInt (Minio._port b)) /\
  Minio.serialize b !! "access_key" = Some (VStr (Minio._access_key b)) /\
  Minio.serialize b !! "secret_key" = Some (VStr (Minio._secret_key b)) /\
  Minio.serialize b !! "input" = Some (VList (Minio.input_buckets b)) /\
  Minio.serialize b !! "output" = Some (VList (Minio.output_buckets b)) /\
  Minio.serialize b !! "type" = Some (VStorage StorageTypes.MINIO).
Proof.
  intros H. unfold Minio.serialize. rewrite H.
  repeat split; reflexivity.
Qed.

Lemma serialize_None (b : Minio.t) :
  Minio._storage_container b = None -> Minio.serialize b = ∅.
Proof. intros H. unfold Minio.serialize. rewrite H. reflexivity. Qed.

(** On a backend whose address is known, [configure_connection] only
    builds the client. *)
Lemma configure_connection_known (self : Minio.t) (w : world) :
  String.eqb (Minio._url self) "" = false ->
  Minio.configure_connection (self, w) =
    (Return tt,
     (Minio.set_connection (Some (Minio.get_connection self)) self, w)).
Proof.
  intros H. unfold Minio.configure_connection. munfold. cbn.
  rewrite H. reflexivity.
Qed.

(** Without a container handle [configure_connection] cannot resolve an
    unknown address. *)
Lemma configure_connection_no_container (self : Minio.t) (w : world) :
  Minio._storage_container self = None ->
  forall self' w',
    Minio.configure_connection (self, w) = (Return tt, (self', w')) ->
    Minio._storage_container self' = None.
Proof.
  intros Hc self' w'. unfold Minio.configure_connection. munfold. cbn.
  destruct (String.eqb (Minio._url self) ""); cbn.
  - rewrite Hc. discriminate.
  - intros [= <- _]. exact Hc.
Qed.

(** The entry of a backend that holds a container, restored while the
    daemon still knows the container. *)
Lemma deserialize_entry (cfg : gmap string value) (w : world)
    (id address access secret : string) (port : Z)
    (input output : list string) (nets : gmap string string) :
  cfg !! "instance_id" = Some (VStr id) ->
  cfg !! "address" = Some (VStr address) ->
  cfg !! "port" = Some (VInt port) ->
  cfg !! "access_key" = Some (VStr access) ->
  cfg !! "secret_key" = Some (VStr secret) ->
  cfg !! "input" = Some (VList input) ->
  cfg !! "output" = Some (VList output) ->
  daemon w !! id = Some nets ->
  String.eqb address "" = false ->
  exists b',
    Minio.deserialize cfg w =
      (Return b', set_trace (fun t => t ++ [DockerGet id]) w) /\
    Minio._storage_container b' = Some {| c_id := id; c_networks := nets |} /\
    Minio._url b' = address /\ Minio._port b' = port /\
    Minio._access_key b' = access /\ Minio._secret_key b' = secret /\
    Minio.input_buckets b' = input /\ Minio.output_buckets b' = output.
Proof.
  intros E1 E2 E3 E4 E5 E6 E7 Hd Ha.
  unfold Minio.deserialize, Minio.deserialize_body.
  munfold. rewrite E1, E2, E3, E4, E5, E6, E7. cbn.
  rewrite Hd. cbn.
  rewrite configure_connection_known by exact Ha.
  eexists. split; [reflexivity|]. cbn. repeat split; reflexivity.
Qed.

(** C1. A backend in state Ready with input buckets [I] and output buckets
    [O]: restoring the entry that [serialize] produced gives a backend
    whose input and output bucket lists are [I] and [O], element for
    element. *)
Theorem serialize_deserialize_buckets (b : Minio.t) (w : world) :
  ready b w = true ->
  exists b' w',
    Minio.deserialize (Minio.serialize b) w = (Return b', w') /\
    Minio.input_buckets b' = Minio.input_buckets b /\
    Minio.output_buckets b' = Minio.output_buckets b.
Proof.
  unfold ready. intros H.
  destruct (Minio._storage_container b) as [c|] eqn:Hc; [|discriminate].
  destruct (daemon w !! c_id c) as [nets|] eqn:Hd; [|discriminate].
  apply negb_true_iff in H.
  destruct (serialize_Some b c Hc) as (E1 & E2 & E3 & E4 & E5 & E6 & E7 & _).
  destruct (deserialize_entry _ w _ _ _ _ _ _ _ nets
              E1 E2 E3 E4 E5 E6 E7 Hd H)
    as (b' & Hb' & _ & _ & _ & _ & _ & Hi & Ho).
  exists b', (set_trace (fun t => t ++ [DockerGet (c_id c)]) w).
  auto.
Qed.

Lemma serialize_deserialize_buckets_witness :
  ready example_backend example_world = true /\
  exists b' w',
    Minio.deserialize (Minio.serialize example_backend) example_world
      = (Return b', w') /\
    Minio.input_buckets b' = Minio.input_buckets example_backend /\
    Minio.output_buckets b' = Minio.output_buckets example_backend.
Proof.
  split.
  - vm_compute. reflexivity.
  - apply (serialize_deserialize_buckets example_backend example_world).
    vm_compute. reflexivity.
Defined.

(** C3. The container that the entry names is gone: [deserialize] raises,
    and all it did was the lookup; the daemon was asked to run nothing
    and holds what it held. *)
Theorem deserialize_container_gone (cfg : gmap string value) (w : world)
    (id : string) :
  cfg !! "instance_id" = Some (VStr id) ->
  daemon w !! id = None ->
  exists w',
    Minio.deserialize cfg w =
      (Raise (RuntimeError
                ("Cached container " +:+ id +:+ " not available anymore!")),
       w') /\
    new_events w w' = [DockerGet id] /\
    daemon w' = daemon w /\ store w' = store w.
Proof.
  intros Hid Hd.
  exists (set_trace (fun t => t ++ [DockerGet id]) w).
  split; [|split; [|split; reflexivity]].
  - unfold Minio.deserialize, Minio.deserialize_body.
    rewrite Hid. munfold. cbn. rewrite Hd. reflexivity.
  - unfold new_events. cbn. rewrite drop_app_length. reflexivity.
Qed.

Lemma deserialize_container_gone_witness :
  Minio.serialize example_backend !! "instance_id"
    = Some (VStr "4f1c09be77aa") /\
  daemon deserted_world !! "4f1c09be77aa" = None /\
  exists w',
    Minio.deserialize (Minio.serialize example_backend) deserted_world =
      (Raise (RuntimeError
                ("Cached container " +:+ "4f1c09be77aa" +:+
                 " not available anymore!")), w') /\
    new_events deserted_world w' = [DockerGet "4f1c09be77aa"] /\
    daemon w' = daemon deserted_world /\ store w' = store deserted_world.
Proof.
  split; [reflexivity|]. split; [reflexivity|].
  apply (deserialize_container_gone (Minio.serialize example_backend)
           deserted_world "4f1c09be77aa"); reflexivity.
Defined.

(** What [deserialize] returns for an entry without ["instance_id"] holds
    no container. *)
Lemma deserialize_no_instance_id (cfg : gmap string value) (w : world)
    (obj : Minio.t) (w' : world) :
  cfg !! "instance_id" = None ->
  Minio.deserialize cfg w = (Return obj, w') ->
  Minio._storage_container obj = None.
Proof.
  intros Hid. unfold Minio.deserialize, Minio.deserialize_body.
  rewrite Hid. munfold. cbn.
  repeat
    match goal with
    | |- context [cfg !! ?k] =>
        destruct (cfg !! k) as [[?|?|?|?]|]; cbn; try discriminate
    end.
  match goal with
  | |- context [Minio.configure_connection (?o, w)] =>
      destruct (Minio.configure_connection (o, w)) as [[[]|e] [o' w'']] eqn:E
  end; cbn.
  - intros [= <- _].
    eapply configure_connection_no_container; [|exact E]. reflexivity.
  - destruct (is_docker_NotFound e); discriminate.
Qed.

(** C10. An entry without the key ["instance_id"]: the restored backend
    holds no container, so its own [serialize] gives the empty
    dictionary; a well-formed entry is restored, with its address, port
    and credentials in the object, and what the object serializes to is
    not the entry. *)
Theorem deserialize_without_instance_id (cfg : gmap string value)
    (w : world) :
  cfg !! "instance_id" = None ->
  (forall obj w',
     Minio.deserialize cfg w = (Return obj, w') ->
     Minio._storage_container obj = None /\ Minio.serialize obj = ∅) /\
  (forall address access secret port input output,
     cfg !! "address" = Some (VStr address) ->
     String.eqb address "" = false ->
     cfg !! "port" = Some (VInt port) ->
     cfg !! "access_key" = Some (VStr access) ->
     cfg !! "secret_key" = Some (VStr secret) ->
     cfg !! "input" = Some (VList input) ->
     cfg !! "output" = Some (VList output) ->
     exists obj,
       Minio.deserialize cfg w = (Return obj, w) /\
       Minio._url obj = address /\ Minio._port obj = port /\
       Minio._access_key obj = access /\ Minio._secret_key obj = secret /\
       Minio.input_buckets obj = input /\
       Minio.output_buckets obj = output /\
       Minio.serialize obj = ∅ /\
       Minio.serialize obj <> cfg).
Proof.
  intros Hid. split.
  - intros obj w' H.
    pose proof (deserialize_no_instance_id cfg w obj w' Hid H) as Hc.
    split; [exact Hc | exact (serialize_None obj Hc)].
  - intros address access secret port input output E2 Ha E3 E4 E5 E6 E7.
    unfold Minio.deserialize, Minio.deserialize_body.
    rewrite Hid. munfold. rewrite E2, E3, E4, E5, E6, E7. cbn.
    rewrite configure_connection_known by exact Ha.
    eexists. split; [reflexivity|]. cbn.
    repeat (split; [reflexivity|]).
    intros Heq. rewrite <- Heq in E2. rewrite lookup_empty in E2.
    discriminate.
Qed.

Lemma deserialize_without_instance_id_witness :
  hosted_entry !! "instance_id" = None /\
  exists obj,
    Minio.deserialize hosted_entry example_world
      = (Return obj, example_world) /\
    Minio._url obj = "storage.example.org:9000" /\
    Minio.input_buckets obj = ["matmul-0a1b2c3d-4e5f-46"] /\
    Minio._storage_container obj = None /\
    Minio.serialize obj = ∅ /\
    Minio.serialize obj <> hosted_entry.
Proof.
  split; [reflexivity|].
  destruct (deserialize_without_instance_id hosted_entry example_world)
    as [Hnone Hsome]; [reflexivity|].
  destruct (Hsome "storage.example.org:9000" "access" "secret" 9000%Z
              ["matmul-0a1b2c3d-4e5f-46"] ["matmul-99887766-5544-43"])
    as (obj & Hd & Hu & _ & _ & _ & Hi & _ & He & Hne);
    try reflexivity.
  exists obj. repeat (split; [assumption|]).
  split; [exact (proj1 (Hnone obj example_world Hd))|].
  split; assumption.
Defined.

End Deserialize.

(** ** Buckets: [_create_bucket] *)

Section CreateBucket.

(** The loop of [_create_bucket] finds what [find] finds, and logs it. *)
Lemma create_bucket_scan_find (name : string) (buckets : list string)
    (self : Minio.t) (w : world) :
  Minio._create_bucket_scan name buckets (self, w) =
    match find (Py.contains name) buckets with
    | Some b =>
        (Return (Some b),
         (self,
          set_trace (fun t => t ++
            [LogInfo "Bucket {} for {} already exists, skipping."
               [AStr b; AStr name]]) w))
    | None => (Return None, (self, w))
    end.
Proof.
  induction buckets as [|b rest IH]; [reflexivity|].
  cbn [Minio._create_bucket_scan find].
  destruct (Py.contains name b); [reflexivity | exact IH].
Qed.

Lemma new_events_app (w : world) (evs : list event) :
  new_events w (set_trace (fun t => t ++ evs) w) = evs.
Proof. unfold new_events. cbn. apply drop_app_length. Qed.

(** C2. Some existing bucket name contains the logical name:
    [_create_bucket] returns an element of the list that contains the
    name, the first one of them, as it stands in the list; it logs the
    reuse and calls nothing else, so no bucket is created and the storage
    holds what it held. *)
Theorem create_bucket_reuses (name : string) (buckets : list string)
    (b : string) (self : Minio.t) (w : world) :
  b ∈ buckets ->
  Py.contains name b = true ->
  exists b' w',
    Minio._create_bucket name buckets (self, w) = (Return b', (self, w')) /\
    find (Py.contains name) buckets = Some b' /\
    b' ∈ buckets /\ Py.contains name b' = true /\
    new_events w w' =
      [LogInfo "Bucket {} for {} already exists, skipping."
         [AStr b'; AStr name]] /\
    store w' = store w.
Proof.
  intros Hin Hb.
  destruct (find (Py.contains name) buckets) as [b'|] eqn:Hf.
  - destruct (find_some _ _ Hf) as [Hin' Hb'].
    exists b'. eexists. split.
    + unfold Minio._create_bucket. munfold.
      rewrite create_bucket_scan_find, Hf. reflexivity.
    + split; [reflexivity|]. split; [apply list_elem_of_In; exact Hin'|].
      split; [exact Hb'|]. split; [apply new_events_app | reflexivity].
  - apply list_elem_of_In in Hin.
    rewrite (find_none _ _ Hf b Hin) in Hb. discriminate.
Qed.

Lemma create_bucket_reuses_witness :
  "f-ab12cd34" ∈ ["f-ab12cd34"] /\
  Py.contains "f" "f-ab12cd34" = true /\
  exists b' w',
    Minio._create_bucket "f" ["f-ab12cd34"] (example_backend, example_world)
      = (Return b', (example_backend, w')) /\
    find (Py.contains "f") ["f-ab12cd34"] = Some b' /\
    b' ∈ ["f-ab12cd34"] /\ Py.contains "f" b' = true /\
    new_events example_world w' =
      [LogInfo "Bucket {} for {} already exists, skipping."
         [AStr b'; AStr "f"]] /\
    store w' = store example_world.
Proof.
  split; [apply list_elem_of_here|]. split; [reflexivity|].
  apply (create_bucket_reuses "f" ["f-ab12cd34"] "f-ab12cd34").
  - apply list_elem_of_here.
  - reflexivity.
Defined.

End CreateBucket.

(** ** The text of a UUID *)

Section UuidFacts.

Lemma hex_digit_lower (d : Z) :
  is_lower_hex (UUID.hex_digit (d mod 16)) = true.
Proof.
  pose proof (Z.mod_pos_bound d 16 ltac:(lia)) as Hr.
  unfold UUID.hex_digit.
  assert (Hn : (Z.to_nat (d mod 16) < 16)%nat) by lia.
  revert Hn. generalize (Z.to_nat (d mod 16)). intros n Hn.
  do 16 (destruct n as [|n]; [reflexivity|]). lia.
Qed.

Lemma hex_fixed_length (n : nat) (z : Z) :
  String.length (UUID.hex_fixed n z) = n.
Proof.
  induction n as [|n IH]; cbn [UUID.hex_fixed String.length]; congruence.
Qed.

Lemma hex_fixed_lower (n : nat) (z : Z) :
  all_lower_hex (UUID.hex_fixed n z) = true.
Proof.
  induction n as [|n IH]; [reflexivity|].
  unfold all_lower_hex in *.
  cbn [UUID.hex_fixed list_ascii_of_string forallb].
  rewrite hex_digit_lower. exact IH.
Qed.

Lemma format_032x_length (z : Z) :
  (32 <= String.length (UUID.format_032x z))%nat.
Proof. unfold UUID.format_032x. rewrite hex_fixed_length. lia. Qed.

Lemma format_032x_lower (z : Z) :
  all_lower_hex (UUID.format_032x z) = true.
Proof. apply hex_fixed_lower. Qed.

(** A string of at least sixteen characters, spelled out. *)
Lemma string_16 (s : string) :
  (16 <= String.length s)%nat ->
  exists c0 c1 c2 c3 c4 c5 c6 c7 c8 c9 c10 c11 c12 c13 c14 c15 r,
    s = String c0 (String c1 (String c2 (String c3 (String c4 (String c5
       (String c6 (String c7 (String c8 (String c9 (String c10 (String c11
       (String c12 (String c13 (String c14 (String c15 r))))))))))))))).
Proof.
  intros H.
  do 16 (destruct s as [|? s]; [cbn in H; lia|];
         cbn [String.length] in H; apply le_S_n in H).
  repeat eexists.
Qed.

(** The first sixteen characters of the text of any UUID. *)
Lemma uuid_str_prefix16 (u : UUID.t) :
  uuid_prefix16 (Py.slice 0 16 (UUID.str u)) = true.
Proof.
  unfold UUID.str.
  pose proof (format_032x_length (UUID.int u)) as Hlen.
  pose proof (format_032x_lower (UUID.int u)) as Hhex.
  destruct (string_16 (UUID.format_032x (UUID.int u)) ltac:(lia))
    as (c0 & c1 & c2 & c3 & c4 & c5 & c6 & c7 & c8 & c9 & c10 & c11 &
        c12 & c13 & c14 & c15 & r & E).
  rewrite E in *. clear E Hlen.
  unfold all_lower_hex in Hhex.
  cbn [list_ascii_of_string forallb] in Hhex.
  repeat (apply andb_true_iff in Hhex as [? Hhex]).
  unfold uuid_prefix16, all_lower_hex, Py.slice, Py.slice_from.
  cbv -[is_lower_hex].
  repeat match goal with
         | Hc : is_lower_hex _ = true |- _ => rewrite Hc; clear Hc
         end.
  reflexivity.
Qed.

End UuidFacts.

Section CreateBucketFresh.

Lemma find_contains_none (name : string) (buckets : list string) :
  (forall b, b ∈ buckets -> Py.contains name b = false) ->
  find (Py.contains name) buckets = None.
Proof.
  induction buckets as [|b rest IH]; intros H; [reflexivity|].
  cbn [find]. rewrite (H b (list_elem_of_here _ _)).
  apply IH. intros x Hx. apply H. apply list_elem_of_further. exact Hx.
Qed.

Lemma uuid4_run (w : world) :
  uuid4 w = (Return (next_uuid w), set_urandom_pos (fun p => (p + 16)%nat) w).
Proof. reflexivity. Qed.

(** What [_create_bucket] does once its loop found nothing. *)
Lemma create_bucket_create (name : string) (buckets : list string)
    (self : Minio.t) (w : world) :
  (forall b, b ∈ buckets -> Py.contains name b = false) ->
  Minio._create_bucket name buckets (self, w) =
    try_except
      (_ ← Minio.the_connection;
       Minio.lift (MinioClient.make_bucket (fresh_bucket_name name w)
                     Minio.MINIO_REGION);;
       Minio.log_info "Created bucket {}" [AStr (fresh_bucket_name name w)];;
       mret (fresh_bucket_name name w))
      is_bucket_creation_error
      (fun err => Minio.log_error "Bucket creation failed!" [];; raise err)
      (self, set_urandom_pos (fun p => (p + 16)%nat) w).
Proof.
  intros Hnone. unfold Minio._create_bucket.
  cbv [mbind M_bind]. rewrite create_bucket_scan_find.
  rewrite (find_contains_none _ _ Hnone).
  cbv [Minio.lift]. cbn [snd fst]. rewrite uuid4_run. reflexivity.
Qed.

(** When [make_bucket] fails, [_create_bucket] raises what it raised and
    the storage holds what it held. *)
Lemma create_bucket_reraises (name : string) (buckets : list string)
    (self : Minio.t) (w : world) (conn : MinioClient.t) (e : exn) :
  (forall b, b ∈ buckets -> Py.contains name b = false) ->
  Minio.connection self = Some conn ->
  fault_make_bucket w (fresh_bucket_name name w) = Some e ->
  exists w',
    Minio._create_bucket name buckets (self, w) = (Raise e, (self, w')) /\
    store w' = store w.
Proof.
  intros Hnone Hconn Hf. rewrite (create_bucket_create _ _ _ _ Hnone).
  generalize dependent (fresh_bucket_name name w). intros bucket_name Hf.
  unfold MinioClient.make_bucket. munfold. cbn. rewrite Hconn. cbn.
  rewrite Hf. cbn.
  destruct (is_bucket_creation_error e); eexists; split; reflexivity.
Qed.

(** C5, as the code has it.  No existing bucket name contains the logical
    name, and the storage accepts the new bucket: [_create_bucket] creates
    and returns the logical name, a hyphen, and the first sixteen
    characters of the text of a random UUID, which are eight lowercase
    hexadecimal characters, a hyphen, four more, a hyphen, and two more.
    One [make_bucket] call is made, for that name in region
    [us-east-1]. *)
Theorem create_bucket_fresh (name : string) (buckets : list string)
    (self : Minio.t) (w : world) (conn : MinioClient.t) :
  (forall b, b ∈ buckets -> Py.contains name b = false) ->
  Minio.connection self = Some conn ->
  fault_make_bucket w (fresh_bucket_name name w) = None ->
  store w !! fresh_bucket_name name w = None ->
  exists suffix w',
    uuid_prefix16 suffix = true /\
    Minio._create_bucket name buckets (self, w)
      = (Return (name +:+ "-" +:+ suffix), (self, w')) /\
    new_events w w' =
      [MakeBucket (name +:+ "-" +:+ suffix) "us-east-1";
       LogInfo "Created bucket {}" [AStr (name +:+ "-" +:+ suffix)]] /\
    store w' = <[name +:+ "-" +:+ suffix := []]> (store w).
Proof.
  intros Hnone Hconn Hf Hs.
  exists (Py.slice 0 16 (UUID.str (next_uuid w))).
  rewrite (create_bucket_create _ _ _ _ Hnone).
  change (name +:+ "-" +:+ Py.slice 0 16 (UUID.str (next_uuid w)))
    with (fresh_bucket_name name w).
  generalize dependent (fresh_bucket_name name w). intros bucket_name Hf Hs.
  unfold MinioClient.make_bucket. munfold. cbn. rewrite Hconn. cbn.
  rewrite Hf. cbn. rewrite Hs. cbn.
  eexists. split; [apply uuid_str_prefix16|].
  split; [reflexivity|]. split; [|reflexivity].
  unfold new_events. cbn. rewrite <- app_assoc, drop_app_length.
  reflexivity.
Qed.

Lemma create_bucket_fresh_witness :
  (forall b, b ∈ @nil string -> Py.contains "f" b = false) /\
  Minio.connection example_backend = Some example_connection /\
  fault_make_bucket example_world (fresh_bucket_name "f" example_world)
    = None /\
  store example_world !! fresh_bucket_name "f" example_world = None /\
  exists suffix w',
    uuid_prefix16 suffix = true /\
    Minio._create_bucket "f" [] (example_backend, example_world)
      = (Return ("f" +:+ "-" +:+ suffix), (example_backend, w')) /\
    new_events example_world w' =
      [MakeBucket ("f" +:+ "-" +:+ suffix) "us-east-1";
       LogInfo "Created bucket {}" [AStr ("f" +:+ "-" +:+ suffix)]] /\
    store w' = <["f" +:+ "-" +:+ suffix := []]> (store example_world).
Proof.
  assert (Hnil : forall b, b ∈ @nil string -> Py.contains "f" b = false)
    by (intros b Hb; inversion Hb).
  split; [exact Hnil|]. split; [reflexivity|]. split; [reflexivity|].
  split; [vm_compute; reflexivity|].
  apply (create_bucket_fresh "f" [] example_backend example_world
           example_connection Hnil);
    [reflexivity | reflexivity | vm_compute; reflexivity].
Defined.

(** The pattern accepts the names that the specification has in mind. *)
Lemma name_hex8_accepts : name_hex8 "f" "f-ab12cd34" = true.
Proof. reflexivity. Qed.

(** C5 as the specification words it does not hold.  With no existing
    bucket, the name created for ["f"] has a sixteen-character suffix with
    two hyphens in it, not eight hexadecimal characters; and when the
    storage refuses the bucket, no name is returned at all. *)
Lemma create_bucket_fresh_counterexample :
  fst (Minio._create_bucket "f" [] (example_backend, example_world))
    = Return "f-0b30557a-9fc4-49" /\
  name_hex8 "f" "f-0b30557a-9fc4-49" = false /\
  fst (Minio._create_bucket "f" [] (example_backend, refusing_world))
    = Raise minio_BucketAlreadyExists.
Proof. split; [|split]; vm_compute; reflexivity. Qed.

End CreateBucketFresh.

(** ** The HTTP client: what [urllib3] does with the settings *)

Section HttpClient.

Local Open Scope Z_scope.

(** *** The retry loop of the library *)

Lemma is_exhausted_spec (r : Urllib3.Retry) :
  Urllib3.is_exhausted r = (Urllib3.total r <? 0)%Z.
Proof.
  unfold Urllib3.is_exhausted. cbn.
  destruct (Z.eqb_spec (Urllib3.total r) 0) as [E|E]; cbn.
  - rewrite E. reflexivity.
  - reflexivity.
Qed.

Lemma increment_cases (r : Urllib3.Retry) (response : Urllib3.Response) :
  (Urllib3.total r <= 0 /\
   exists msg,
     Urllib3.increment r response = Raise (urllib3_MaxRetryError msg)) \/
  (0 < Urllib3.total r /\
   Urllib3.increment r response =
     Return {| Urllib3.total := Urllib3.total r - 1;
               Urllib3.backoff_factor := Urllib3.backoff_factor r;
               Urllib3.status_forcelist := Urllib3.status_forcelist r |}).
Proof.
  unfold Urllib3.increment. rewrite is_exhausted_spec. cbn.
  destruct (Z.ltb_spec (Urllib3.total r - 1) 0) as [E|E].
  - left. split; [lia|]. eexists. reflexivity.
  - right. split; [lia|]. reflexivity.
Qed.

(** A response is retried only for a method of the allowed ones, and
    then when its status is in the force list, or when it carries a
    [Retry-After] header, its status is one of 413, 429 and 503 and the
    count of retries is not zero. *)
Lemma is_retry_true (r : Urllib3.Retry) (method : string)
    (response : Urllib3.Response) :
  Urllib3.is_retry r method response = true ->
  Urllib3._is_method_retryable method = true /\
  (Urllib3.in_status_forcelist r (Urllib3.status response) = true \/
   Urllib3.total r <> 0 /\
   Urllib3.has_retry_after response = true /\
   existsb (Z.eqb (Urllib3.status response))
     Urllib3.RETRY_AFTER_STATUS_CODES = true).
Proof.
  unfold Urllib3.is_retry.
  destruct (Urllib3._is_method_retryable method); cbn [negb];
    [|discriminate].
  intros H. split; [reflexivity|].
  destruct (Urllib3.in_status_forcelist r (Urllib3.status response));
    [left; reflexivity|].
  right. apply andb_prop in H as [H H3]. apply andb_prop in H as [H1 H2].
  split; [|split; assumption].
  destruct (Z.eqb_spec (Urllib3.total r) 0); [discriminate|assumption].
Qed.

(** The loop ends: fuel for one request more than the policy has retries
    is enough. *)
Lemma urlopen_returns (fuel : nat) : forall (r : Urllib3.Retry) (history : nat)
    (method : string) (server : nat -> Urllib3.Response),
  (Z.to_nat (Urllib3.total r) < fuel)%nat ->
  exists x, Urllib3.urlopen fuel r history method server = Some x.
Proof.
  induction fuel as [|fuel IH]; intros r history method server Hfuel;
    [lia|].
  cbn [Urllib3.urlopen].
  destruct (Urllib3.is_retry r method (server history));
    [|eexists; reflexivity].
  destruct (increment_cases r (server history))
    as [(_ & msg & ->)|(Hpos & ->)]; [eexists; reflexivity|].
  destruct (IH {| Urllib3.total := Urllib3.total r - 1;
                  Urllib3.backoff_factor := Urllib3.backoff_factor r;
                  Urllib3.status_forcelist := Urllib3.status_forcelist r |}
               (S history) method server) as [x Hx]; [cbn; lia|].
  rewrite Hx. eexists. reflexivity.
Qed.

(** What a finished call has done.  With [history] requests answered
    before it, the call sent the requests [history .. requests - 1].
    Every response but the last was one that [is_retry] accepts, at most
    [total] of them; the last one is returned unless it is also one to
    retry and the policy is used up, which raises [MaxRetryError].  Before
    each retry the pool slept as [sleep] says, and a response in the force
    list is retried as long as the policy has a retry left. *)
Lemma urlopen_spec (fuel : nat) : forall (r : Urllib3.Retry) (history : nat)
    (method : string) (server : nat -> Urllib3.Response)
    (x : Urllib3.Exchange),
  Urllib3.urlopen fuel r history method server = Some x ->
  (history < Urllib3.requests x)%nat /\
  (Z.of_nat (Urllib3.requests x) <=
     Z.of_nat history + 1 + Z.max 0 (Urllib3.total r)) /\
  Urllib3.slept x =
    map (fun n => Urllib3.sleep r n (server (n - 1)%nat))
      (seq (S history) (Urllib3.requests x - S history)) /\
  (forall k, (history <= k)%nat -> (S k < Urllib3.requests x)%nat ->
     Urllib3._is_method_retryable method = true /\
     (Urllib3.in_status_forcelist r (Urllib3.status (server k)) = true \/
      Urllib3.has_retry_after (server k) = true /\
      existsb (Z.eqb (Urllib3.status (server k)))
        Urllib3.RETRY_AFTER_STATUS_CODES = true)) /\
  (forall k, (history <= k < Urllib3.requests x)%nat ->
     Z.of_nat (k - history) < Urllib3.total r ->
     Urllib3._is_method_retryable method = true ->
     Urllib3.in_status_forcelist r (Urllib3.status (server k)) = true ->
     (S k < Urllib3.requests x)%nat) /\
  match Urllib3.result x with
  | Return response =>
      response = server (Urllib3.requests x - 1)%nat /\
      Urllib3.is_retry
        {| Urllib3.total :=
             Urllib3.total r
             - Z.of_nat (Urllib3.requests x - S history);
           Urllib3.backoff_factor := Urllib3.backoff_factor r;
           Urllib3.status_forcelist := Urllib3.status_forcelist r |}
        method response = false
  | Raise e =>
      Z.of_nat (Urllib3.requests x) =
        Z.of_nat history + 1 + Z.max 0 (Urllib3.total r) /\
      exists msg, e = urllib3_MaxRetryError msg
  end.
Proof.
  induction fuel as [|fuel IH]; intros r history method server x Hx;
    [discriminate|].
  cbn [Urllib3.urlopen] in Hx.
  destruct (Urllib3.is_retry r method (server history)) eqn:Hretry.
  - destruct (increment_cases r (server history))
      as [(Hle & msg & Hinc)|(Hpos & Hinc)]; rewrite Hinc in Hx.
    + injection Hx as <-.
      cbn [Urllib3.requests Urllib3.result Urllib3.slept].
      split; [lia|]. split; [lia|].
      split; [rewrite Nat.sub_diag; reflexivity|].
      split; [intros; lia|]. split; [intros; lia|].
      split; [lia|]. eexists. reflexivity.
    + destruct (Urllib3.urlopen fuel _ (S history) method server)
        as [y|] eqn:Hy; [|discriminate].
      injection Hx as <-.
      cbn [Urllib3.requests Urllib3.result Urllib3.slept].
      destruct (IH _ _ _ _ _ Hy) as (Hlt & Hub & Hsl & Hre & Hfo & Hres).
      cbn [Urllib3.total Urllib3.backoff_factor Urllib3.status_forcelist]
        in Hub, Hsl, Hre, Hfo, Hres.
      split; [lia|]. split; [lia|].
      split.
      { replace (Urllib3.requests y - S history)%nat
          with (S (Urllib3.requests y - S (S history)))%nat by lia.
        cbn [seq map]. rewrite Hsl.
        replace (S history - 1)%nat with history by lia. reflexivity. }
      split.
      { intros k Hk Hk'.
        destruct (Nat.eq_dec k history) as [->|Hne].
        - destruct (is_retry_true _ _ _ Hretry) as (Hm & [Hf|(_ & H2 & H3)]);
            (split; [exact Hm|]); [left; exact Hf|right; split; assumption].
        - apply Hre; lia. }
      split.
      { intros k Hk Hbudget Hm Hf.
        destruct (Nat.eq_dec k history) as [->|Hne]; [lia|].
        apply Hfo; [lia| |exact Hm|exact Hf].
        replace (k - S history)%nat with (k - history - 1)%nat by lia.
        lia. }
      destruct (Urllib3.result y) as [response|e].
      * destruct Hres as [-> Hno]. split; [reflexivity|].
        replace (Urllib3.total r
                 - Z.of_nat (Urllib3.requests y - S history))
          with (Urllib3.total r - 1
                - Z.of_nat (Urllib3.requests y - S (S history)))
          by lia.
        exact Hno.
      * destruct Hres as [Hn Hmsg]. split; [lia|exact Hmsg].
  - injection Hx as <-.
      cbn [Urllib3.requests Urllib3.result Urllib3.slept].
    split; [lia|]. split; [lia|].
    split; [rewrite Nat.sub_diag; reflexivity|].
    split; [intros; lia|].
    split.
    { intros k Hk _ Hm Hf.
      assert (k = history) as -> by lia.
      unfold Urllib3.is_retry in Hretry. rewrite Hm, Hf in Hretry.
      discriminate. }
    replace (S history - 1)%nat with history by lia.
    split; [reflexivity|].
    rewrite Nat.sub_diag, Z.sub_0_r.
    destruct r. exact Hretry.
Qed.

(** *** The pool of connections *)

(** A queue made with a positive [maxsize] never grows beyond it. *)
Lemma pool_run_bounded (calls : list Urllib3.pool_call) :
  forall p : Urllib3.HTTPConnectionPool,
  0 < Urllib3.pool_maxsize p ->
  Z.of_nat (length (Urllib3.pool p)) <= Urllib3.pool_maxsize p ->
  Z.of_nat (length (Urllib3.pool (Urllib3.pool_run calls p)))
    <= Urllib3.pool_maxsize p.
Proof.
  induction calls as [|c calls IH]; intros p Hpos Hlen; [exact Hlen|].
  cbn [Urllib3.pool_run fold_left].
  change (fold_left Urllib3.pool_step calls (Urllib3.pool_step p c))
    with (Urllib3.pool_run calls (Urllib3.pool_step p c)).
  assert (Urllib3.pool_maxsize (Urllib3.pool_step p c)
            = Urllib3.pool_maxsize p /\
          Z.of_nat (length (Urllib3.pool (Urllib3.pool_step p c)))
            <= Urllib3.pool_maxsize p) as [Hm Hl].
  { destruct c as [|conn]; cbn.
    - unfold Urllib3._get_conn.
      destruct (Urllib3.pool p) as [|[c|] rest] eqn:E; cbn;
        rewrite ?E; cbn in *; split; try reflexivity; lia.
    - unfold Urllib3._put_conn.
      destruct (Z.ltb_spec 0 (Urllib3.pool_maxsize p)); [|lia].
      destruct (Z.leb_spec (Urllib3.pool_maxsize p)
                  (Z.of_nat (length (Urllib3.pool p)))); cbn;
        split; try reflexivity; lia. }
  rewrite <- Hm. apply IH; rewrite Hm; assumption.
Qed.

(** Nothing waits for a connection: a pool whose queue is empty makes a
    new one. *)
Lemma get_conn_never_blocks (p : Urllib3.HTTPConnectionPool) :
  Urllib3.pool p = [] ->
  Urllib3._get_conn p =
    (S (Urllib3.num_connections p),
     {| Urllib3.pool_maxsize := Urllib3.pool_maxsize p;
        Urllib3.pool := [];
        Urllib3.num_connections := S (Urllib3.num_connections p);
        Urllib3.closed := Urllib3.closed p |}).
Proof.
  intros E. unfold Urllib3._get_conn, Urllib3._new_conn. rewrite E.
  reflexivity.
Qed.

Lemma in_status_forcelist_client (self : Minio.t) (s : Z) :
  Urllib3.in_status_forcelist (Urllib3.retries (MinioClient.http_client (Minio.get_connection self))) s
    = true <->
  In s [500; 502; 503; 504].
Proof.
  unfold Urllib3.in_status_forcelist. rewrite existsb_exists. cbn.
  split.
  - intros (y & Hy & E). apply Z.eqb_eq in E. subst y. exact Hy.
  - intros H. exists s. split; [exact H|apply Z.eqb_refl].
Qed.

Lemma in_retry_after_status_codes (s : Z) :
  existsb (Z.eqb s) Urllib3.RETRY_AFTER_STATUS_CODES = true ->
  In s [413; 429; 503].
Proof.
  rewrite existsb_exists. intros (y & Hy & E). apply Z.eqb_eq in E.
  subst y. exact Hy.
Qed.

(** C6, as the code has it.  The client that [get_connection] builds, the
    only one [configure_connection] installs, has a connect and a read
    timeout of one second.  The queue of its pool never holds more than
    ten connections, whatever connections are taken and given back.  A
    call through it always ends, after at least one and at most six
    requests: the first one and at most five retries.  A response is
    followed by a retry only when the method is one of the allowed ones
    and its status is 500, 502, 503 or 504, or it carries a [Retry-After]
    header and its status is 413, 429 or 503, so of the 4xx statuses only
    413 and 429, and only with that header; a response with one of the
    four listed statuses to an allowed method is retried as long as fewer
    than five retries were made.  The call returns the last response, or
    raises [MaxRetryError] after the sixth request.  When no response
    carries a [Retry-After] header the waits before the retries are 0,
    0.4, 0.8, 1.6 and 3.2 seconds: backoff factor 0.2, doubled from the
    second retry on. *)
Theorem storage_client_retry_policy (self : Minio.t) (w : world)
    (method : string) (server : nat -> Urllib3.Response)
    (calls : list Urllib3.pool_call) :
  Urllib3.timeout (MinioClient.http_client (Minio.get_connection self))
    = {| Urllib3.connect := 1; Urllib3.read := 1 |} /\
  (length
     (Urllib3.pool
        (Urllib3.pool_run calls
           (Urllib3.connection_from_host (MinioClient.http_client (Minio.get_connection self)))))
   <= 10)%nat /\
  (exists x,
     Urllib3.request (MinioClient.http_client (Minio.get_connection self)) method server = Some x /\
     (1 <= Urllib3.requests x <= 6)%nat /\
     (forall k, (S k < Urllib3.requests x)%nat ->
        Urllib3._is_method_retryable method = true /\
        (In (Urllib3.status (server k)) [500; 502; 503; 504] \/
         Urllib3.retry_after (server k) <> None /\
         In (Urllib3.status (server k)) [413; 429; 503])) /\
     (forall k, (S k < Urllib3.requests x)%nat ->
        400 <= Urllib3.status (server k) < 500 ->
        Urllib3.retry_after (server k) <> None /\
        In (Urllib3.status (server k)) [413; 429]) /\
     (forall k, (k < Urllib3.requests x)%nat -> (k < 5)%nat ->
        Urllib3._is_method_retryable method = true ->
        In (Urllib3.status (server k)) [500; 502; 503; 504] ->
        (S k < Urllib3.requests x)%nat) /\
     match Urllib3.result x with
     | Return response =>
         response = server (Urllib3.requests x - 1)%nat
     | Raise e =>
         Urllib3.requests x = 6%nat /\
         exists msg, e = urllib3_MaxRetryError msg
     end /\
     ((forall k, Urllib3.retry_after (server k) = None) ->
      Urllib3.slept x =
        take (Urllib3.requests x - 1)
          [0%Q; 0.4%Q; 0.8%Q; 1.6%Q; 3.2%Q])) /\
  match Minio.configure_connection (self, w) with
  | (Return _, (self', _)) =>
      Minio.connection self' = Some (Minio.get_connection self')
  | (Raise _, (self', _)) => Minio.connection self' = Minio.connection self
  end.
Proof.
  split; [reflexivity|]. split.
  { change (MinioClient.http_client (Minio.get_connection self))
      with Minio._define_http_client.
    pose proof (pool_run_bounded calls
                  (Urllib3.connection_from_host Minio._define_http_client))
      as H.
    cbn -[Z.of_nat Z.to_nat repeat length Urllib3.pool_run
          Urllib3.connection_from_host Minio._define_http_client] in H.
    change (Urllib3.pool_maxsize
              (Urllib3.connection_from_host Minio._define_http_client))
      with 10 in H.
    change (Urllib3.pool
              (Urllib3.connection_from_host Minio._define_http_client))
      with (repeat (@None nat) (Z.to_nat 10)) in H at 1.
    rewrite repeat_length in H. lia. }
  split.
  { destruct (urlopen_returns 6 (Urllib3.retries (MinioClient.http_client (Minio.get_connection self))) 0
                method server) as [x Hx]; [cbn; lia|].
    exists x. split; [exact Hx|].
    destruct (urlopen_spec _ _ _ _ _ _ Hx)
      as (Hlt & Hub & Hsl & Hre & Hfo & Hres).
    change (Urllib3.total (Urllib3.retries (MinioClient.http_client (Minio.get_connection self))))
      with 5 in Hub, Hfo, Hres.
    split; [lia|].
    assert (forall k, (S k < Urllib3.requests x)%nat ->
              Urllib3._is_method_retryable method = true /\
              (In (Urllib3.status (server k)) [500; 502; 503; 504] \/
               Urllib3.retry_after (server k) <> None /\
               In (Urllib3.status (server k)) [413; 429; 503]))
      as Honly.
    { intros k Hk. destruct (Hre k) as (Hm & Hs); [lia|exact Hk|].
      split; [exact Hm|]. destruct Hs as [Hs|(Hh & Hs)].
      - left. apply (in_status_forcelist_client self). exact Hs.
      - right. split; [|apply in_retry_after_status_codes; exact Hs].
        unfold Urllib3.has_retry_after in Hh.
        destruct (Urllib3.retry_after (server k)); [discriminate|].
        discriminate. }
    split; [exact Honly|]. split.
    { intros k Hk H4. destruct (Honly k Hk) as (_ & [Hs|(Hh & Hs)]).
      - cbn in Hs. lia.
      - split; [exact Hh|]. cbn in Hs |- *. lia. }
    split.
    { intros k Hk Hk5 Hm Hs. apply Hfo; [lia|lia|exact Hm|].
      apply (in_status_forcelist_client self). exact Hs. }
    split.
    { destruct (Urllib3.result x) as [response|e].
      - exact (proj1 Hres).
      - destruct Hres as [Hn Hmsg]. split; [lia|exact Hmsg]. }
    intros Hnone. rewrite Hsl.
    assert (Urllib3.requests x - 1 < 6)%nat as Hn by lia.
    remember (Urllib3.requests x - 1)%nat as n eqn:En. clear - Hn Hnone.
    do 6 (destruct n as [|n];
          [cbn [seq map take]; unfold Urllib3.sleep;
           rewrite ?Hnone; reflexivity|]).
    lia. }
  unfold Minio.configure_connection. munfold. cbn.
  destruct (String.eqb (Minio._url self) ""); [|reflexivity].
  destruct (Minio._storage_container self) as [c|]; [|reflexivity]. cbn.
  destruct (daemon w !! c_id c) as [nets|]; [|reflexivity]. cbn.
  destruct (nets !! "bridge") as [ip|]; [|reflexivity]. cbn.
  rewrite address_text_nonempty. reflexivity.
Qed.

(** C6 as the specification words it does not hold.  A server that always
    answers 503 is sent six requests before the error is raised, and one
    that answers 503 five times and then 200 is answered on the sixth: the
    policy counts five retries, not five attempts.  A 429 response that
    carries a [Retry-After] header is retried, and 429 is a 4xx status. *)
Lemma storage_client_retry_counterexample :
  option_map Urllib3.requests
    (Urllib3.request (MinioClient.http_client (Minio.get_connection example_backend)) "GET"
       (always_answers 503))
    = Some 6%nat /\
  option_map (fun x => (Urllib3.result x, Urllib3.requests x))
    (Urllib3.request (MinioClient.http_client (Minio.get_connection example_backend)) "GET"
       (answers_first 5
          {| Urllib3.status := 503; Urllib3.retry_after := None |}))
    = Some (Return {| Urllib3.status := 200;
                      Urllib3.retry_after := None |}, 6%nat) /\
  option_map Urllib3.requests
    (Urllib3.request (MinioClient.http_client (Minio.get_connection example_backend)) "GET"
       (answers_first 1
          {| Urllib3.status := 429; Urllib3.retry_after := Some 1%Q |}))
    = Some 2%nat.
Proof. repeat split; vm_compute; reflexivity. Qed.

End HttpClient.

(** ** The connection: [_define_http_client], [get_connection],
    [configure_connection] *)

Section Connection.

(** Resolving the address: whatever address the bridge network reports,
    the method completes. *)
Lemma configure_connection_resolves (self : Minio.t) (w : world)
    (c : Container) (nets : gmap string string) (ip : string) :
  Minio._url self = "" ->
  Minio._storage_container self = Some c ->
  daemon w !! c_id c = Some nets ->
  nets !! "bridge" = Some ip ->
  exists self' w',
    Minio.configure_connection (self, w) = (Return tt, (self', w')) /\
    Minio._url self' = ip +:+ ":" +:+ Py.str_int (Minio._port self) /\
    Minio.connection self' = Some (Minio.get_connection self') /\
    new_events w w' =
      [DockerReload (c_id c);
       LogInfo "Starting minio instance at {}"
         [AStr (ip +:+ ":" +:+ Py.str_int (Minio._port self))]].
Proof.
  intros Hu Hc Hd Hb.
  unfold Minio.configure_connection. munfold. cbn.
  rewrite Hu, Hc. cbn. rewrite Hd. cbn. rewrite Hb. cbn.
  rewrite address_text_nonempty.
  eexists _, _. split; [reflexivity|]. cbn.
  split; [reflexivity|]. split; [reflexivity|].
  unfold new_events. cbn. rewrite <- app_assoc, drop_app_length.
  reflexivity.
Qed.

(** C8, what the code does.  The bridge network of the container reports
    an empty address: [configure_connection] does not raise.  The text it
    tests for emptiness is the address joined to the port, [":<port>"]
    here, so it goes on and builds a client for that endpoint. *)
Theorem configure_connection_empty_address (self : Minio.t) (w : world)
    (c : Container) (nets : gmap string string) :
  Minio._url self = "" ->
  Minio._storage_container self = Some c ->
  daemon w !! c_id c = Some nets ->
  nets !! "bridge" = Some "" ->
  exists self' w',
    Minio.configure_connection (self, w) = (Return tt, (self', w')) /\
    Minio._url self' = ":" +:+ Py.str_int (Minio._port self) /\
    option_map MinioClient.endpoint (Minio.connection self')
      = Some (":" +:+ Py.str_int (Minio._port self)).
Proof.
  intros Hu Hc Hd Hb.
  destruct (configure_connection_resolves self w c nets "" Hu Hc Hd Hb)
    as (self' & w' & Hrun & Hurl & Hconn & _).
  exists self', w'. split; [exact Hrun|]. split; [exact Hurl|].
  rewrite Hconn. cbn. rewrite Hurl. reflexivity.
Qed.

Lemma configure_connection_empty_address_witness :
  Minio._url unresolved_backend = "" /\
  daemon empty_address_world !! "4f1c09be77aa"
    = Some {[ "bridge" := "" ]} /\
  ({[ "bridge" := "" ]} : gmap string string) !! "bridge" = Some "" /\
  exists self' w',
    Minio.configure_connection (unresolved_backend, empty_address_world)
      = (Return tt, (self', w')) /\
    Minio._url self' = ":9000" /\
    option_map MinioClient.endpoint (Minio.connection self') = Some ":9000".
Proof.
  split; [reflexivity|]. split; [reflexivity|]. split; [reflexivity|].
  apply (configure_connection_empty_address unresolved_backend
           empty_address_world
           {| c_id := "4f1c09be77aa"; c_networks := ∅ |}
           {[ "bridge" := "" ]}); reflexivity.
Defined.

(** The same through [start]: a container that comes up without an
    address gives a backend that believes it is ready. *)
Lemma start_empty_address :
  fst (Minio.start 9000 (Minio.__init__, empty_address_world)) = Return tt /\
  Minio._url
    (fst (snd (Minio.start 9000 (Minio.__init__, empty_address_world))))
    = ":9000".
Proof. split; vm_compute; reflexivity. Qed.

End Connection.

(** ** Uploads: [upload] and [uploader_func] *)

Section Upload.

(** C7 as the specification words it does not hold: [upload] transfers
    nothing.  On a backend with a bucket and a working transport it issues
    no call and raises [NotImplementedError]. *)
Lemma upload_counterexample :
  Minio.upload "matmul-0a1b2c3d-4e5f-46" "/tmp/in.bin" "in.bin"
    (example_backend, example_world)
    = (Raise NotImplementedError, (example_backend, example_world)) /\
  fault_fput_object example_world "matmul-0a1b2c3d-4e5f-46" "in.bin"
    "/tmp/in.bin" = None.
Proof. split; reflexivity. Qed.

(** C7, as the code has it.  [upload] raises [NotImplementedError] for
    every bucket, path and key and touches nothing.  The transfer is
    [uploader_func]: with a connection and an index into the input
    buckets, it puts the file into that bucket, and what the transport
    raises is what it raises, the same exception. *)
Theorem uploader_func_propagates (self : Minio.t) (w : world)
    (conn : MinioClient.t) (bucket_idx : Z) (file filepath bucket : string) :
  Minio.connection self = Some conn ->
  Py.getitem (Minio.input_buckets self) bucket_idx = Some bucket ->
  (forall bucket_name path key,
     Minio.upload bucket_name path key (self, w)
       = (Raise NotImplementedError, (self, w))) /\
  fst (Minio.uploader_func bucket_idx file filepath (self, w)) =
    match fault_fput_object w bucket file filepath with
    | Some e => Raise e
    | None =>
        match store w !! bucket with
        | Some _ => Return tt
        | None => Raise minio_NoSuchBucket
        end
    end /\
  FputObject bucket file filepath
    ∈ new_events w (snd (snd (Minio.uploader_func bucket_idx file filepath
                                (self, w)))) /\
  (fault_fput_object w bucket file filepath = None ->
   forall objects, store w !! bucket = Some objects ->
   exists objects',
     store (snd (snd (Minio.uploader_func bucket_idx file filepath (self, w))))
       !! bucket = Some objects' /\
     file ∈ objects').
Proof.
  intros Hconn Hidx. split; [reflexivity|].
  unfold Minio.uploader_func, MinioClient.fput_object. munfold. cbn.
  rewrite Hconn. cbn. rewrite Hidx. cbn.
  destruct (fault_fput_object w bucket file filepath) as [e|]; cbn.
  - destruct (is_minio_ResponseError e); cbn;
      (split; [reflexivity|]); (split; [|discriminate]);
      unfold new_events; cbn;
      rewrite <- ?app_assoc, drop_app_length; apply list_elem_of_here.
  - destruct (store w !! bucket) as [objects|]; cbn.
    + split; [reflexivity|]. split.
      * unfold new_events. cbn. rewrite drop_app_length.
        apply list_elem_of_here.
      * intros _ objects0 _. eexists. rewrite lookup_insert_eq.
        split; [reflexivity|].
        case_bool_decide; [assumption|].
        set_solver.
    + split; [reflexivity|]. split; [|discriminate].
      unfold new_events. cbn. rewrite drop_app_length.
      apply list_elem_of_here.
Qed.

Lemma uploader_func_propagates_witness :
  Minio.connection example_backend = Some example_connection /\
  Py.getitem (Minio.input_buckets example_backend) 0
    = Some "matmul-0a1b2c3d-4e5f-46" /\
  fst (Minio.uploader_func 0 "new.bin" "/tmp/new.bin"
         (example_backend, failing_upload_world))
    = Raise (minio_ResponseError "InternalError") /\
  fst (Minio.uploader_func 0 "new.bin" "/tmp/new.bin"
         (example_backend, example_world)) = Return tt /\
  exists objects',
    store (snd (snd (Minio.uploader_func 0 "new.bin" "/tmp/new.bin"
                       (example_backend, example_world))))
      !! "matmul-0a1b2c3d-4e5f-46" = Some objects' /\
    "new.bin" ∈ objects'.
Proof.
  split; [reflexivity|]. split; [reflexivity|].
  destruct (uploader_func_propagates example_backend failing_upload_world
              example_connection 0 "new.bin" "/tmp/new.bin"
              "matmul-0a1b2c3d-4e5f-46" eq_refl eq_refl)
    as (_ & Hfail & _).
  destruct (uploader_func_propagates example_backend example_world
              example_connection 0 "new.bin" "/tmp/new.bin"
              "matmul-0a1b2c3d-4e5f-46" eq_refl eq_refl)
    as (_ & Hok & _ & Hstore).
  split; [exact Hfail|]. split; [exact Hok|].
  apply (Hstore eq_refl ["in.bin"]). reflexivity.
Defined.

End Upload.

(** ** Cleaning: [clean] and [clean_bucket] *)

Section Clean.

Lemma shrinks_in_refl (bucket : string) (st : gmap string (list string)) :
  shrinks_in bucket st st.
Proof.
  split; [reflexivity|].
  destruct (st !! bucket) as [objects|]; [|reflexivity].
  exists objects. split; reflexivity.
Qed.

Lemma shrinks_in_trans (bucket : string)
    (st1 st2 st3 : gmap string (list string)) :
  shrinks_in bucket st1 st2 -> shrinks_in bucket st2 st3 ->
  shrinks_in bucket st1 st3.
Proof.
  intros [Ho1 Hb1] [Ho2 Hb2]. split.
  - intros b Hb. rewrite (Ho2 b Hb). apply Ho1, Hb.
  - destruct (st1 !! bucket) as [o1|].
    + destruct Hb1 as (o2 & E2 & Hsub). rewrite E2 in Hb2.
      destruct Hb2 as (o3 & E3 & Hsub'). exists o3.
      split; [exact E3 | set_solver].
    + rewrite Hb1 in Hb2. exact Hb2.
Qed.

Lemma remove_object_run (bucket o : string) (w : world) :
  exists errs w',
    MinioClient.remove_object bucket o w = (Return errs, w') /\
    trace w' = trace w ++ [RemoveObject bucket o] /\
    shrinks_in bucket (store w) (store w').
Proof.
  unfold MinioClient.remove_object. munfold. cbn.
  destruct (fault_remove w bucket o); cbn.
  - eexists _, _. split; [reflexivity|]. split; [reflexivity|].
    apply shrinks_in_refl.
  - eexists _, _. split; [reflexivity|]. split; [reflexivity|]. cbn.
    split.
    + intros b Hb. apply lookup_alter_ne. congruence.
    + rewrite lookup_alter_eq.
      destruct (store w !! bucket) as [objects|]; [|reflexivity].
      eexists. split; [reflexivity|].
      intros x Hx. apply list_elem_of_filter in Hx. tauto.
Qed.

Lemma remove_objects_run (bucket : string) (objects : list string)
    (w : world) :
  exists errs w',
    MinioClient.remove_objects bucket objects w = (Return errs, w') /\
    trace w' = trace w ++ map (RemoveObject bucket) objects /\
    shrinks_in bucket (store w) (store w').
Proof.
  revert w. induction objects as [|o rest IH]; intros w.
  - exists [], w. split; [reflexivity|]. rewrite app_nil_r.
    split; [reflexivity | apply shrinks_in_refl].
  - destruct (remove_object_run bucket o w) as (e1 & w1 & H1 & T1 & S1).
    destruct (IH w1) as (e2 & w2 & H2 & T2 & S2).
    exists (e1 ++ e2), w2.
    split; [|split].
    + cbn [MinioClient.remove_objects]. cbv [mbind M_bind mret M_ret].
      rewrite H1, H2. reflexivity.
    + rewrite T2, T1, <- app_assoc. reflexivity.
    + eapply shrinks_in_trans; eassumption.
Qed.

(** A loop that only logs. *)
Lemma for_log (mk : string -> event) (errs : list string) (self : Minio.t)
    (w : world) :
  exists w',
    Minio.for_ errs (fun err => Minio.lift (emit (mk err))) (self, w)
      = (Return tt, (self, w')) /\
    trace w' = trace w ++ map mk errs /\ store w' = store w.
Proof.
  revert w. induction errs as [|err rest IH]; intros w.
  - exists w. split; [reflexivity|]. rewrite app_nil_r. split; reflexivity.
  - destruct (IH (set_trace (fun t => t ++ [mk err]) w)) as (w' & H & T & S).
    exists w'. split; [|split].
    + cbn [Minio.for_]. munfold. cbn. cbn in H. exact H.
    + rewrite T. cbn. rewrite <- app_assoc. reflexivity.
    + rewrite S. reflexivity.
Qed.

Lemma removals_app (l1 l2 : list event) :
  removals (l1 ++ l2) = removals l1 ++ removals l2.
Proof. apply omap_app. Qed.

Lemma removals_RemoveObject (bucket : string) (objects : list string) :
  removals (map (RemoveObject bucket) objects) = map (pair bucket) objects.
Proof.
  induction objects as [|o rest IH]; [reflexivity|].
  cbn. unfold removals in IH. rewrite IH. reflexivity.
Qed.

Lemma removals_log (mk : string -> event) (errs : list string) :
  (forall err, removals [mk err] = []) ->
  removals (map mk errs) = [].
Proof.
  intros H. induction errs as [|err rest IH]; [reflexivity|].
  change (map mk (err :: rest)) with ([mk err] ++ map mk rest).
  rewrite removals_app, H, IH. reflexivity.
Qed.

Lemma elem_of_map_pair (b b0 o : string) (objects : list string) :
  (b, o) ∈ map (pair b0) objects <-> b = b0 /\ o ∈ objects.
Proof.
  induction objects as [|x rest IH]; cbn [map].
  - split; [intros Hin; inversion Hin | intros [_ Hin]; inversion Hin].
  - rewrite !elem_of_cons, IH. split.
    + intros [[= -> ->] | [-> Ho]]; auto.
    + intros [-> [-> | Ho]]; auto.
Qed.

Lemma new_events_trace (w w' : world) (evs : list event) :
  trace w' = trace w ++ evs -> new_events w w' = evs.
Proof. intros H. unfold new_events. rewrite H. apply drop_app_length. Qed.

(** One round of listing, deleting and logging, as both methods do it. *)
Lemma clean_round (mk : string -> event) (bucket : string)
    (objects : list string) (self : Minio.t) (w : world)
    (conn : MinioClient.t) :
  (forall err, removals [mk err] = []) ->
  Minio.connection self = Some conn ->
  store w !! bucket = Some objects ->
  exists w' evs,
    (_ ← Minio.the_connection;
     listed ← Minio.lift (MinioClient.list_objects bucket);
     errs ← Minio.lift (MinioClient.remove_objects bucket listed);
     Minio.for_ errs (fun err => Minio.lift (emit (mk err)))) (self, w)
      = (Return tt, (self, w')) /\
    trace w' = trace w ++ evs /\
    removals evs = map (pair bucket) objects /\
    shrinks_in bucket (store w) (store w').
Proof.
  intros Hmk Hconn Hst.
  destruct (remove_objects_run bucket objects
              (set_trace (fun t => t ++ [ListObjects bucket]) w))
    as (errs & w1 & H1 & T1 & S1).
  destruct (for_log mk errs self w1) as (w2 & H2 & T2 & S2).
  exists w2, ([ListObjects bucket] ++ map (RemoveObject bucket) objects
              ++ map mk errs).
  split; [|split; [|split]].
  - unfold MinioClient.list_objects. munfold. cbn. rewrite Hconn. cbn.
    rewrite Hst. cbn. rewrite H1. cbn. exact H2.
  - rewrite T2, T1. cbn. rewrite <- !app_assoc. reflexivity.
  - rewrite !removals_app, removals_RemoveObject, (removals_log mk errs Hmk).
    cbn. apply app_nil_r.
  - rewrite S2. exact S1.
Qed.

(** The loop of [clean] over a list of buckets that all exist. *)
Lemma clean_loop (buckets : list string) (self : Minio.t) (w : world)
    (conn : MinioClient.t) :
  Minio.connection self = Some conn ->
  (forall b, b ∈ buckets -> is_Some (store w !! b)) ->
  exists w' evs,
    Minio.for_ buckets (fun bucket =>
      _ ← Minio.the_connection;
      objects ← Minio.lift (MinioClient.list_objects bucket);
      errs ← Minio.lift (MinioClient.remove_objects bucket objects);
      Minio.for_ errs (fun err =>
        Minio.log_error "Deletion Error: {}" [ADeleteError err]))
      (self, w) = (Return tt, (self, w')) /\
    trace w' = trace w ++ evs /\
    forall b o,
      (b, o) ∈ removals evs <->
      b ∈ buckets /\ exists objects, store w !! b = Some objects /\ o ∈ objects.
Proof.
  intros Hconn. revert w.
  induction buckets as [|b0 rest IH]; intros w Hex.
  - exists w, []. split; [reflexivity|]. rewrite app_nil_r.
    split; [reflexivity|]. intros b o. cbn.
    split; [intros Hin; inversion Hin | intros [Hin _]; inversion Hin].
  - destruct (Hex b0 (list_elem_of_here _ _)) as [S0 HS0].
    destruct (clean_round
                (fun err => LogError "Deletion Error: {}" [ADeleteError err])
                b0 S0 self w conn (fun _ => eq_refl) Hconn HS0)
      as (w1 & evs1 & H1 & T1 & R1 & [Hother Hsame]).
    rewrite HS0 in Hsame. destruct Hsame as (S0' & HS0' & Hsub).
    destruct (IH w1) as (w2 & evs2 & H2 & T2 & R2).
    { intros b Hb. destruct (decide (b = b0)) as [->|Hne].
      - rewrite HS0'. eauto.
      - rewrite (Hother b Hne). apply Hex. apply list_elem_of_further, Hb. }
    exists w2, (evs1 ++ evs2). split; [|split].
    + cbn [Minio.for_]. cbv [mbind M_bind] in *.
      unfold Minio.log_error. rewrite H1. exact H2.
    + rewrite T2, T1, <- app_assoc. reflexivity.
    + intros b o. rewrite removals_app, elem_of_app, R1, R2.
      rewrite elem_of_cons, elem_of_map_pair.
      split.
      * intros [[-> Ho] | (Hb & S & HS & Ho)].
        -- split; [left; reflexivity | eauto].
        -- split; [right; exact Hb|].
           destruct (decide (b = b0)) as [->|Hne].
           ++ rewrite HS0' in HS. injection HS as <-. eauto.
           ++ rewrite (Hother b Hne) in HS. eauto.
      * intros [[-> | Hb] (S & HS & Ho)].
        -- left. rewrite HS0 in HS. injection HS as <-.
           split; [reflexivity | exact Ho].
        -- destruct (decide (b = b0)) as [->|Hne].
           ++ left. rewrite HS0 in HS. injection HS as <-.
              split; [reflexivity | exact Ho].
           ++ right. split; [exact Hb|]. exists S.
              rewrite (Hother b Hne). eauto.
Qed.

(** C9. The deletions that cleaning sends are those of the objects listed
    when it is called, and the errors that come back for single objects
    are logged, never raised: whatever objects the server fails to delete,
    [clean_bucket] on an existing bucket returns, having sent one deletion
    per listed object of that bucket and no other; and [clean] returns,
    having sent deletions for exactly the objects that each output bucket
    listed when [clean] was called. *)
Theorem clean_deletes_listing (self : Minio.t) (w : world)
    (conn : MinioClient.t) :
  Minio.connection self = Some conn ->
  (forall bucket objects,
     store w !! bucket = Some objects ->
     exists w',
       Minio.clean_bucket bucket (self, w) = (Return tt, (self, w')) /\
       removals (new_events w w') = map (pair bucket) objects) /\
  ((forall b, b ∈ Minio.output_buckets self -> is_Some (store w !! b)) ->
   exists w',
     Minio.clean (self, w) = (Return tt, (self, w')) /\
     forall b o,
       (b, o) ∈ removals (new_events w w') <->
       b ∈ Minio.output_buckets self /\
       exists objects, store w !! b = Some objects /\ o ∈ objects).
Proof.
  intros Hconn. split.
  - intros bucket objects Hst.
    destruct (clean_round
                (fun error =>
                   LogError "Error when deleting object from bucket {}: {}!"
                     [AStr bucket; ADeleteError error])
                bucket objects self w conn (fun _ => eq_refl) Hconn Hst)
      as (w' & evs & H & T & R & _).
    exists w'. split; [exact H|].
    rewrite (new_events_trace _ _ _ T). exact R.
  - intros Hex.
    destruct (clean_loop (Minio.output_buckets self) self w conn Hconn Hex)
      as (w' & evs & H & T & R).
    exists w'. split.
    + unfold Minio.clean. cbv [mbind M_bind Minio.get_self gets].
      cbn [fst]. exact H.
    + rewrite (new_events_trace _ _ _ T). exact R.
Qed.

Lemma clean_deletes_listing_witness :
  Minio.connection example_backend = Some example_connection /\
  (exists w',
     Minio.clean_bucket "matmul-99887766-5544-43"
       (example_backend, stubborn_world)
       = (Return tt, (example_backend, w')) /\
     removals (new_events stubborn_world w') =
       [("matmul-99887766-5544-43", "a"); ("matmul-99887766-5544-43", "b");
        ("matmul-99887766-5544-43", "c")]) /\
  (exists w',
     Minio.clean (example_backend, stubborn_world)
       = (Return tt, (example_backend, w')) /\
     forall b o,
       (b, o) ∈ removals (new_events stubborn_world w') <->
       b ∈ Minio.output_buckets example_backend /\
       exists objects, store stubborn_world !! b = Some objects /\ o ∈ objects).
Proof.
  split; [reflexivity|].
  destruct (clean_deletes_listing example_backend stubborn_world
              example_connection eq_refl) as [Hbucket Hclean].
  split.
  - apply (Hbucket "matmul-99887766-5544-43" ["a"; "b"; "c"]). reflexivity.
  - apply Hclean. intros b Hb.
    apply elem_of_cons in Hb as [-> | Hb]; [eexists; reflexivity|].
    apply elem_of_cons in Hb as [-> | Hb]; [eexists; reflexivity|].
    inversion Hb.
Defined.

(** With the server that cannot delete ["b"]: [clean] returns, the three
    deletions were sent, and the error came back into the log. *)
Lemma clean_stubborn_example :
  fst (Minio.clean (example_backend, stubborn_world)) = Return tt /\
  new_events stubborn_world
    (snd (snd (Minio.clean (example_backend, stubborn_world)))) =
    [ListObjects "matmul-99887766-5544-43";
     RemoveObject "matmul-99887766-5544-43" "a";
     RemoveObject "matmul-99887766-5544-43" "b";
     RemoveObject "matmul-99887766-5544-43" "c";
     LogError "Deletion Error: {}" [ADeleteError "b"];
     ListObjects "matmul-deadbeef-0000-4f"] /\
  store (snd (snd (Minio.clean (example_backend, stubborn_world))))
    !! "matmul-99887766-5544-43" = Some ["b"].
Proof. split; [|split]; vm_compute; reflexivity. Qed.

End Clean.

(** ** The experiment driver *)

Section Driver.

Import CloudExperiments.

(** A value outside the [choices] of an argument ends the run in
    [parse_args], before anything else is done. *)
Lemma main_rejects_unknown_cloud (coll : collaborators)
    (c b o l s : string) (reps : Z) (v : bool) (st : script) :
  in_choices c ["azure"; "aws"] = false ->
  main coll [c; b; o; l; s] reps v st = (Raise (SystemExit 2), st).
Proof.
  intros Hc. unfold main, parse_args. munfold. rewrite Hc. reflexivity.
Qed.

Lemma parse_args_azure (b o l s : string) (reps : Z) (v : bool)
    (st : script) :
  in_choices l ["python"; "nodejs"; "cpp"] = true ->
  in_choices s ["test"; "small"; "large"] = true ->
  parse_args ["azure"; b; o; l; s] reps v st =
    (Return {| cloud := "azure"; benchmark := b; output_dir := o;
               language := l; size := s; repetitions := reps;
               verbose := v |}, st).
Proof. intros Hl Hs. unfold parse_args. rewrite Hl, Hs. reflexivity. Qed.

(** C4, what the code does.  For the cloud ["azure"] no client is built
    and nothing fails where one should have been: as long as they succeed,
    the output directory is created, the benchmark located and the code
    package built, and only then the run ends, on the unbound name
    [client], with a [NameError] instead of an error about the
    provider. *)
Theorem main_azure_runs_stages (coll : collaborators)
    (b o l s out path : string) (pkg : string * Z) (reps : Z) (v : bool) :
  in_choices l ["python"; "nodejs"; "cpp"] = true ->
  in_choices s ["test"; "small"; "large"] = true ->
  create_output coll o v = Return out ->
  find_benchmark coll b = Return path ->
  create_code_package coll b path l v = Return pkg ->
  main coll ["azure"; b; o; l; s] reps v {| client := None; steps := [] |} =
    (Raise (NameError "name 'client' is not defined"),
     {| client := None;
        steps :=
          [CreateOutput o v;
           Info "# Created experiment output at {}" [AStr o];
           FindBenchmark b;
           Info "# Located benchmark {} at {}" [AStr b; AStr path];
           CreateCodePackage b path l v;
           Info "# Created code_package {} of size {}"
             [AStr (fst pkg); AInt (snd pkg)]] |}).
Proof.
  intros Hl Hs Ho Hf Hp.
  unfold main, name_client, call, did. munfold.
  rewrite (parse_args_azure b o l s reps v _ Hl Hs). cbn.
  rewrite (parse_args_azure b o l s reps v _ Hl Hs). cbn.
  rewrite Ho. cbn. rewrite Hf. cbn. rewrite Hp. reflexivity.
Qed.

Lemma main_azure_runs_stages_witness :
  in_choices "python" ["python"; "nodejs"; "cpp"] = true /\
  in_choices "small" ["test"; "small"; "large"] = true /\
  create_output example_collaborators "out" false = Return "out" /\
  find_benchmark example_collaborators "matmul"
    = Return "benchmarks/matmul" /\
  create_code_package example_collaborators "matmul" "benchmarks/matmul"
    "python" false = Return ("matmul.zip", 2048%Z) /\
  main example_collaborators ["azure"; "matmul"; "out"; "python"; "small"]
    5 false {| client := None; steps := [] |} =
    (Raise (NameError "name 'client' is not defined"),
     {| client := None;
        steps :=
          [CreateOutput "out" false;
           Info "# Created experiment output at {}" [AStr "out"];
           FindBenchmark "matmul";
           Info "# Located benchmark {} at {}"
             [AStr "matmul"; AStr "benchmarks/matmul"];
           CreateCodePackage "matmul" "benchmarks/matmul" "python" false;
           Info "# Created code_package {} of size {}"
             [AStr "matmul.zip"; AInt 2048]] |}).
Proof.
  repeat (split; [reflexivity|]).
  apply (main_azure_runs_stages example_collaborators "matmul" "out"
           "python" "small" "out" "benchmarks/matmul" ("matmul.zip", 2048%Z)
           5 false); reflexivity.
Defined.

(** The same command line for ["aws"] builds the client first and reaches
    the input generator. *)
Lemma main_aws_example :
  fst (main example_collaborators
         ["aws"; "matmul"; "out"; "python"; "small"] 5 false
         {| client := None; steps := [] |}) = Return ∅.
Proof. reflexivity. Qed.

End Driver.
